(** * simple_master: a HART-to-MQTT bridge

    A shallow embedding of [simple_master.py]: the short-frame packer
    [pack_short_frame], the device session [SimpleMaster] with its three
    command exchanges, the MQTT [Client] wrapper and the [run] entry point,
    followed by the properties established about them.

    Python values are embedded as [pyval]; byte strings are lists of
    integers, each a byte value; exceptions are the [Raise] outcome of [result];
    the mutable session object, the incoming message stream and the
    externally visible effects live in the [machine] state threaded by the
    monad [M]. *)

From Stdlib Require Import ZArith List Lia PrimFloat Uint63.
From stdpp Require Import gmap strings list.

#[local] Set Warnings "-inexact-float,-clear-no-such-hyp".

Local Open Scope Z_scope.

(** ** Python values and exceptions *)

Inductive pyval :=
| PNone
| PInt (z : Z)
| PFloat (f : float)
| PBytes (b : list Z).

Inductive exn :=
| OverflowError
| TypeError
| AttributeError
| KeyError
| SystemExit.

(** The outcome of a call: a value, an exception, or [OutOfFuel] for the
    [while True] loop of [run] that is still going when the fuel given to
    the model is used up.  Only [poll_loop] produces [OutOfFuel]. *)
Inductive result (A : Type) :=
| Ok (a : A)
| Raise (e : exn)
| OutOfFuel.
Arguments Ok {A} a.
Arguments Raise {A} e.
Arguments OutOfFuel {A}.

Global Instance result_ret : MRet result := λ A a, Ok a.
Global Instance result_bind : MBind result := λ A B f r,
  match r with
  | Ok a => f a
  | Raise e => Raise e
  | OutOfFuel => OutOfFuel
  end.

Global Instance result_fmap : FMap result := λ A B f r,
  match r with
  | Ok a => Ok (f a)
  | Raise e => Raise e
  | OutOfFuel => OutOfFuel
  end.

(** ** Byte strings *)

Definition is_byte (x : Z) : Prop := 0 <= x < 256.

(** Big-endian base-256 digits of [n], [len] of them. *)
Fixpoint be_digits (len : nat) (n : Z) : list Z :=
  match len with
  | O => []
  | S k => be_digits k (n / 256) ++ [n mod 256]
  end.

(** [n.to_bytes(len, "big")]: OverflowError on a negative [n] and on one
    that does not fit in [len] bytes. *)
Definition to_bytes (n : Z) (len : nat) : result (list Z) :=
  if n <? 0 then Raise OverflowError
  else if 256 ^ Z.of_nat len <=? n then Raise OverflowError
  else Ok (be_digits len n).

(** [int.from_bytes(b, "big")]. *)
Definition from_bytes (b : list Z) : Z :=
  fold_left (λ acc x, acc * 256 + x) b 0.

(** [b * n] on a byte string: [n] copies, none when [n] is negative. *)
Definition bytes_repeat (b : list Z) (n : Z) : list Z :=
  concat (repeat b (Z.to_nat n)).

(** [b[start:]] with Python's treatment of negative and oversized starts. *)
Definition slice_from (b : list Z) (start : Z) : list Z :=
  let len := Z.of_nat (length b) in
  let start := if start <? 0 then Z.max (start + len) 0 else Z.min start len in
  skipn (Z.to_nat start) b.

(** [command += v]: only a byte string can be appended to a byte string. *)
Definition bytes_iadd (command : list Z) (v : pyval) : result (list Z) :=
  match v with
  | PBytes b => Ok (command ++ b)
  | _ => Raise TypeError
  end.

(** [k | v] for an integer constant [k]. *)
Definition py_or (k : Z) (v : pyval) : result Z :=
  match v with
  | PInt z => Ok (Z.lor k z)
  | _ => Raise TypeError
  end.

(** [len(v)]. *)
Definition py_len (v : pyval) : result Z :=
  match v with
  | PBytes b => Ok (Z.of_nat (length b))
  | _ => Raise TypeError
  end.

(** XOR of all the bytes of a byte string. *)
Definition xor_bytes (b : list Z) : Z := fold_left Z.lxor b 0.

(** Modelled from the spec: [hart_protocol.tools.calculate_checksum] belongs
    to the external protocol library and is not part of the sources; the
    specification describes the checksum as the XOR of the bytes it is
    given, returned as a single byte. *)
Definition calculate_checksum (command : list Z) : list Z :=
  [xor_bytes command].

(** ** The frame codec *)

(** [SimpleMaster.pack_short_frame(address, command_id, preamble_len, data)].
    The defaults of the source are [preamble_len = 20] and [data = None]. *)
Definition pack_short_frame
    (address command_id : pyval) (preamble_len : Z) (data : pyval)
    : result (list Z) :=
  let address :=
    match address with
    | PBytes b => PInt (from_bytes b)
    | _ => address
    end in
  command_id ←
    match command_id with
    | PInt c => PBytes <$> to_bytes c 1
    | _ => Ok command_id
    end;
  let command := bytes_repeat [255] preamble_len in
  let command := command ++ [2] in
  address_int ← py_or 128 address;
  address_byte ← to_bytes address_int 1;
  let command := command ++ address_byte in
  command ← bytes_iadd command command_id;
  command ←
    match data with
    | PNone => Ok (command ++ [0])
    | _ =>
        n ← py_len data;
        count ← to_bytes n 1;
        let command := command ++ count in
        bytes_iadd command data
    end;
  Ok (command ++ calculate_checksum (slice_from command preamble_len)).

(** ** Values carried by decoded messages *)

(** A decoded message is an object of the external unpacker; its attributes
    are looked up by name. *)
Abbreviation message := (gmap string pyval).

(** [msg.name]: AttributeError when the message has no such attribute. *)
Definition getattr (msg : message) (name : string) : result pyval :=
  match msg !! name with
  | Some v => Ok v
  | None => Raise AttributeError
  end.

(** [d[key]] on a dict: KeyError when the key is absent. *)
Definition getitem (d : gmap string pyval) (key : string) : result pyval :=
  match d !! key with
  | Some v => Ok v
  | None => Raise KeyError
  end.

(** [v.to_bytes(len, "big")]: only integers have the method. *)
Definition py_to_bytes (v : pyval) (len : nat) : result (list Z) :=
  match v with
  | PInt z => to_bytes z len
  | _ => Raise AttributeError
  end.

(** Conversion of an integer operand to a float; exact for the magnitudes
    below [2^53], which covers the one literal the program multiplies by. *)
Definition float_of_int (n : Z) : float :=
  if n <? 0 then PrimFloat.opp (PrimFloat.of_uint63 (Uint63.of_Z (- n)))
  else PrimFloat.of_uint63 (Uint63.of_Z n).

(** [v * n] for an integer literal [n]. *)
Definition py_mul (v : pyval) (n : Z) : result pyval :=
  match v with
  | PNone => Raise TypeError
  | PInt z => Ok (PInt (z * n))
  | PFloat f => Ok (PFloat (PrimFloat.mul f (float_of_int n)))
  | PBytes b => Ok (PBytes (bytes_repeat b n))
  end.

Definition is_None (v : pyval) : bool :=
  match v with
  | PNone => true
  | _ => false
  end.

(** ** Effects and the machine state *)

(** [STO] is the settle time imported from the [times] module, which is not
    part of the sources; it is kept symbolic. *)
Inductive delay :=
| STO
| Seconds (n : Z).

Inductive event :=
| SerialOpen (port : string)
| SerialWrite (frame : list Z)
| Sleep (d : delay)
| LogDebug (text : string)
| LogResponse (msg : message)
| MqttConnect (username password broker : string) (port : Z)
| MqttLoopStart
| MqttLoopStop
| MqttPublish (topic : string) (payload : pyval)
| PrintSent (payload : pyval) (topic : string)
| PrintFailed (topic : string).

(** The fields of a [SimpleMaster] object other than its two handles. *)
Record SimpleMaster := mkSimpleMaster {
  manufacturer_id : pyval;
  manufacturer_device_type : pyval;
  device_id : pyval;
  long_address : pyval
}.

(** The session object [self], the batches of messages the unpacker will
    yield at the successive drains, and the effects performed so far. *)
Record machine := mkMachine {
  self : SimpleMaster;
  unpacker : list (list message);
  trace : list event
}.

Definition M (A : Type) : Type := machine → result A * machine.

Global Instance M_ret : MRet M := λ A a st, (Ok a, st).
Global Instance M_bind : MBind M := λ A B f m st,
  match m st with
  | (Ok a, st') => f a st'
  | (Raise e, st') => (Raise e, st')
  | (OutOfFuel, st') => (OutOfFuel, st')
  end.

Definition lift {A} (r : result A) : M A := λ st, (r, st).
Definition raise {A} (e : exn) : M A := lift (Raise e).

Definition emit (e : event) : M unit := λ st,
  (Ok (), mkMachine (self st) (unpacker st) (trace st ++ [e])).

(** Reading an attribute [self.f] of the session object. *)
Definition get_field (f : SimpleMaster → pyval) : M pyval := λ st,
  (Ok (f (self st)), st).
Definition get_trace : M (list event) := λ st, (Ok (trace st), st).

Definition modify_self (f : SimpleMaster → SimpleMaster) : M unit := λ st,
  (Ok (), mkMachine (f (self st)) (unpacker st) (trace st)).

Definition set_manufacturer_id (v : pyval) : M unit :=
  modify_self (λ s, mkSimpleMaster
    v (manufacturer_device_type s) (device_id s) (long_address s)).
Definition set_manufacturer_device_type (v : pyval) : M unit :=
  modify_self (λ s, mkSimpleMaster
    (manufacturer_id s) v (device_id s) (long_address s)).
Definition set_device_id (v : pyval) : M unit :=
  modify_self (λ s, mkSimpleMaster
    (manufacturer_id s) (manufacturer_device_type s) v (long_address s)).
Definition set_long_address (v : pyval) : M unit :=
  modify_self (λ s, mkSimpleMaster
    (manufacturer_id s) (manufacturer_device_type s) (device_id s) v).

(** The messages one [for msg in self.unpacker] loop iterates over: the next
    batch of the stream, or none when the stream has nothing left.  The
    batch is taken off the stream as a whole; a loop body that raises ends
    the process in [run], so what the iterator had not yet yielded is never
    looked at again. *)
Definition drain : M (list message) := λ st,
  match unpacker st with
  | [] => (Ok [], st)
  | batch :: later => (Ok batch, mkMachine (self st) later (trace st))
  end.

(** A [for] loop whose body only acts on the machine. *)
Fixpoint for_each {A} (xs : list A) (body : A → M unit) : M unit :=
  match xs with
  | [] => mret ()
  | x :: xs => body x;; for_each xs body
  end.

(** A [for] loop whose body also updates a local variable [acc]. *)
Fixpoint for_fold {A B} (xs : list A) (acc : B) (body : B → A → M B) : M B :=
  match xs with
  | [] => mret acc
  | x :: xs => acc ← body acc x; for_fold xs acc body
  end.

(** Leaving a [with] block: [cleanup] runs after [body] whether it returned
    or raised, and an exception of [body] is raised again afterwards. *)
Definition finally {A} (body : M A) (cleanup : M unit) : M A := λ st,
  match body st with
  | (Ok a, st') => (cleanup;; mret a) st'
  | (Raise e, st') => (cleanup;; raise e) st'
  | (OutOfFuel, st') => (OutOfFuel, st')
  end.

(** ** The external libraries *)

(** The two functions of [hart_protocol.tools] the session calls; they are
    outside the sources and the specification only says that the long
    address is derived from the three identity fields, so they stay
    abstract. *)
Class HartTools := {
  calculate_long_address : pyval → pyval → pyval → result pyval;
  pack_command : pyval → Z → result (list Z)
}.

(** The status paho's [publish] reports for a message, which may depend on
    everything that happened before. *)
Class MqttBroker := {
  publish_status : list event → string → pyval → Z
}.

(** ** The device session, the publisher and the orchestrator *)

Section Program.
Context `{HartTools} `{MqttBroker}.

(** [SimpleMaster.__init__(port)]: opens the serial port and starts with
    an empty identity. *)
Definition SimpleMaster_init (port : string) : M unit :=
  emit (SerialOpen port);;
  modify_self (λ _, mkSimpleMaster PNone PNone PNone PNone).

(** The body of the [for] loop of [run_command_0]. *)
Definition run_command_0_body (msg : message) : M unit :=
  emit (LogResponse msg);;
  v ← lift (getattr msg "manufacturer_id");
  set_manufacturer_id v;;
  v ← lift (getattr msg "manufacturer_device_type");
  set_manufacturer_device_type v;;
  v ← lift (getattr msg "device_id");
  b ← lift (py_to_bytes v 3);
  set_device_id (PBytes b).

(** The part of [run_command_0] that follows the loop. *)
Definition run_command_0_conclude : M bool :=
  m ← get_field manufacturer_id;
  t ← get_field manufacturer_device_type;
  d ← get_field device_id;
  if is_None m || is_None t || is_None d
  then mret false
  else
    a ← lift (calculate_long_address m t d);
    set_long_address a;;
    mret true.

(** [SimpleMaster.run_command_0()]. *)
Definition run_command_0 : M bool :=
  frame ← lift (pack_short_frame (PInt 0) (PInt 0) 20 PNone);
  emit (SerialWrite frame);;
  emit (LogDebug "Send command 0");;
  emit (Sleep STO);;
  msgs ← drain;
  for_each msgs run_command_0_body;;
  run_command_0_conclude.

(** [SimpleMaster.run_command_1()]. *)
Definition run_command_1 : M unit :=
  emit (LogDebug "Send command 1");;
  a ← get_field long_address;
  frame ← lift (pack_command a 1);
  emit (SerialWrite frame);;
  emit (Sleep STO);;
  msgs ← drain;
  for_each msgs (λ msg, emit (LogResponse msg));;
  emit (Sleep (Seconds 1)).

(** The dict [run_command_3] starts from. *)
Definition empty_reading : gmap string pyval :=
  <["primary" := PNone]> (<["primary_units" := PNone]>
  (<["secondary" := PNone]> (<["secondary_units" := PNone]> ∅))).

(** The body of the [for] loop of [run_command_3]; the two assignments of
    the unit fields are commented out in the source. *)
Definition run_command_3_body (data : gmap string pyval) (msg : message)
    : M (gmap string pyval) :=
  v ← lift (getattr msg "primary_variable");
  let data := <["primary" := v]> data in
  v ← lift (getattr msg "secondary_variable");
  let data := <["secondary" := v]> data in
  emit (LogResponse msg);;
  mret data.

(** [SimpleMaster.run_command_3()]. *)
Definition run_command_3 : M (gmap string pyval) :=
  emit (LogDebug "Send command 3");;
  a ← get_field long_address;
  frame ← lift (pack_command a 3);
  emit (SerialWrite frame);;
  emit (Sleep STO);;
  let data := empty_reading in
  msgs ← drain;
  data ← for_fold msgs data run_command_3_body;
  v ← lift (getitem data "secondary");
  v ← lift (py_mul v 1000000);
  let data := <["secondary" := v]> data in
  emit (Sleep (Seconds 1));;
  mret data.

(** [Client.__init__(username, password, broker, port)]. *)
Definition Client_init (username password broker : string) (port : Z)
    : M unit :=
  emit (MqttConnect username password broker port).

(** [Client.__enter__()] and [Client.__exit__(...)]. *)
Definition Client_enter : M unit := emit MqttLoopStart.
Definition Client_exit : M unit := emit MqttLoopStop.

(** [Client.publish(topic, data)]. *)
Definition Client_publish (topic : string) (data : pyval) : M unit :=
  history ← get_trace;
  emit (MqttPublish topic data);;
  if publish_status history topic data =? 0
  then emit (PrintSent data topic)
  else emit (PrintFailed topic).

(** One turn of the [while True] loop of [run]. *)
Definition poll_once : M unit :=
  data ← run_command_3;
  v ← lift (getitem data "primary");
  Client_publish "press" v;;
  v ← lift (getitem data "secondary");
  Client_publish "temp" v.

(** The [while True] loop, cut after [fuel] turns. *)
Fixpoint poll_loop (fuel : nat) : M unit :=
  match fuel with
  | O => λ st, (OutOfFuel, st)
  | S fuel => poll_once;; poll_loop fuel
  end.

(** [with client as cl: body]: the network loop is stopped when the body
    returns and when it raises; the exception then goes on. *)
Definition with_client (body : M unit) : M unit :=
  Client_enter;;
  finally body Client_exit.

(** [run(port, username, password, broker, broker_port)]. *)
Definition run (fuel : nat)
    (port username password broker : string) (broker_port : Z) : M unit :=
  SimpleMaster_init port;;
  result ← run_command_0;
  (if negb result
   then emit (LogDebug "Failed to find and connect to the device.");;
        raise SystemExit
   else mret ());;
  run_command_1;;
  Client_init username password broker broker_port;;
  with_client (poll_loop fuel).

End Program.

(** ** Stand-ins for the external libraries

    Concrete instances on which the session can be run: a long-frame packer
    and a long-address computation in the style of the protocol library,
    and a broker that accepts every message. *)
Module Stub.

Definition stub_long_address (m t d : pyval) : result pyval :=
  match m, t, d with
  | PInt m, PInt t, PBytes d =>
      PBytes <$> to_bytes
        (Z.lor (Z.lor (from_bytes d) (Z.shiftl t 24)) (Z.shiftl m 32)) 5
  | _, _, _ => Raise TypeError
  end.

Definition stub_pack_command (address : pyval) (command_id : Z)
    : result (list Z) :=
  let address :=
    match address with
    | PBytes b => PInt (from_bytes b)
    | _ => address
    end in
  command_id ← to_bytes command_id 1;
  address_int ← py_or 549755813888 address;
  address_bytes ← to_bytes address_int 5;
  let command := [255; 255; 255; 255; 255; 130] ++ address_bytes
                 ++ command_id ++ [0] in
  Ok (command ++ calculate_checksum (slice_from command 5)).

Definition tools : HartTools :=
  {| calculate_long_address := stub_long_address;
     pack_command := stub_pack_command |}.

Definition broker : MqttBroker :=
  {| publish_status := λ _ _ _, 0 |}.

(** A response to command 0, two responses to command 3, a machine whose
    session has no identity yet and one whose session is identified. *)
Definition identity_response : message :=
  <["manufacturer_id" := PInt 1]>
    (<["manufacturer_device_type" := PInt 2]> (<["device_id" := PInt 3]> ∅)).

Definition reading_response : message :=
  <["primary_variable" := PFloat 1.5]>
    (<["secondary_variable" := PFloat 0.002]> ∅).

Definition earlier_response : message :=
  <["primary_variable" := PFloat 7]>
    (<["secondary_variable" := PFloat 9]> ∅).

Definition fresh (stream : list (list message)) : machine :=
  mkMachine (mkSimpleMaster PNone PNone PNone PNone) stream [].

Definition identified (stream : list (list message)) : machine :=
  mkMachine
    (mkSimpleMaster (PInt 1) (PInt 2) (PBytes [0; 0; 3])
       (PBytes [1; 2; 0; 0; 3]))
    stream [].

End Stub.

(** ** Argument conventions of the frame codec *)

(** The address argument is an integer or its big-endian bytes. *)
Definition address_arg (v : pyval) (a : Z) : Prop :=
  v = PInt a ∨ ∃ b, v = PBytes b ∧ from_bytes b = a.

(** A single-byte command id is an integer or a one-byte string. *)
Definition command_arg (v : pyval) (c : Z) : Prop :=
  v = PInt c ∨ v = PBytes [c].

(** The data argument is [None] or a byte string that fits the one-byte
    count. *)
Definition payload_arg (data : pyval) : Prop :=
  data = PNone ∨ ∃ d, data = PBytes d ∧ (length d ≤ 255)%nat.

(** The byte count followed by the data. *)
Definition payload_field (data : pyval) : list Z :=
  match data with
  | PBytes d => Z.of_nat (length d) :: d
  | _ => [0]
  end.

(** [1 if no data else 1 + len(data)]. *)
Definition payload_len (data : pyval) : Z :=
  match data with
  | PBytes d => 1 + Z.of_nat (length d)
  | _ => 1
  end.

(** The reading of the checksum that starts at the command id: the last
    byte of the frame against the XOR of what lies between the address
    byte and the checksum. *)
Definition checksum_from_command_id (frame : list Z) (preamble_len : Z)
    : Prop :=
  last frame
  = Some (xor_bytes (drop (Z.to_nat preamble_len + 2) (removelast frame))).

(** The reading of the checksum that starts at the start delimiter. *)
Definition checksum_from_delimiter (frame : list Z) (preamble_len : Z)
    : Prop :=
  last frame = Some (xor_bytes (slice_from (removelast frame) preamble_len)).

(** ** Observations on runs *)

(** The messages handed to the broker, in order. *)
Definition published (tr : list event) : list (string * pyval) :=
  omap (λ e, match e with
             | MqttPublish topic payload => Some (topic, payload)
             | _ => None
             end) tr.

(** The events that belong to what [run] does after a successful
    identification: anything of the publisher, and the first action of
    [run_command_1] and of [run_command_3]. *)
Definition after_identification (e : event) : bool :=
  match e with
  | MqttConnect _ _ _ _ | MqttLoopStart | MqttLoopStop
  | MqttPublish _ _ | PrintSent _ _ | PrintFailed _ => true
  | LogDebug text =>
      bool_decide (text = "Send command 1")
      || bool_decide (text = "Send command 3")
  | _ => false
  end.

(** A session object on which no identity has been stored. *)
Definition unidentified : SimpleMaster :=
  mkSimpleMaster PNone PNone PNone PNone.

(** The frame [run_command_0] sends. *)
Definition command_0_frame : list Z :=
  bytes_repeat [255] 20 ++ [2; 128; 0; 0; 130].

(** The dict the loop of [run_command_3] leaves, as a function of the
    drained messages. *)
Fixpoint read_messages (msgs : list message) (data : gmap string pyval)
    : result (gmap string pyval) :=
  match msgs with
  | [] => Ok data
  | msg :: msgs =>
      p ← getattr msg "primary_variable";
      s ← getattr msg "secondary_variable";
      read_messages msgs (<["secondary" := s]> (<["primary" := p]> data))
  end.

(** The outcome of [run_command_3], as a function of the long address and
    of the drained messages. *)
Definition reading_of `{HartTools} (a : pyval) (msgs : list message)
    : result (gmap string pyval) :=
  _ ← pack_command a 3;
  data ← read_messages msgs empty_reading;
  v ← getitem data "secondary";
  v ← py_mul v 1000000;
  Ok (<["secondary" := v]> data).

(** A decoded response to command 3 carries the two variables. *)
Definition command_3_response (msg : message) : Prop :=
  is_Some (msg !! "primary_variable") ∧ is_Some (msg !! "secondary_variable").

(** A decoded response to command 0 carries the three identity fields, the
    device id being an integer of three bytes. *)
Definition command_0_response (msg : message) (m t : pyval) (d : Z) : Prop :=
  msg !! "manufacturer_id" = Some m
  ∧ msg !! "manufacturer_device_type" = Some t
  ∧ msg !! "device_id" = Some (PInt d)
  ∧ 0 <= d < 2 ^ 24.

(** A list of published messages made of whole readings: a message on
    [press] immediately followed by one on [temp], any number of times. *)
Fixpoint press_temp_pairs (l : list (string * pyval)) : Prop :=
  match l with
  | [] => True
  | (topic1, _) :: (topic2, _) :: l =>
      topic1 = "press" ∧ topic2 = "temp" ∧ press_temp_pairs l
  | _ => False
  end.

(** ** Auxiliary facts on byte strings *)

Lemma bytes_repeat_singleton_length (x n : Z) :
  length (bytes_repeat [x] n) = Z.to_nat n.
Proof.
  unfold bytes_repeat. induction (Z.to_nat n) as [|k IH]; simpl; [done|].
  by rewrite IH.
Qed.

Lemma slice_from_app (pre body : list Z) (n : Z) :
  0 <= n → length pre = Z.to_nat n → slice_from (pre ++ body) n = body.
Proof.
  intros Hn Hlen. unfold slice_from.
  destruct (Z.ltb_spec n 0) as [?|_]; [lia|].
  rewrite length_app.
  replace (Z.to_nat (Z.min n (Z.of_nat (length pre + length body))))
    with (length pre) by lia.
  by rewrite drop_app_length.
Qed.

Lemma to_bytes_1 (n : Z) : is_byte n → to_bytes n 1 = Ok [n].
Proof.
  intros [Hlo Hhi]. unfold to_bytes.
  destruct (Z.ltb_spec n 0) as [?|_]; [lia|].
  destruct (Z.leb_spec (256 ^ Z.of_nat 1) n) as [?|_]; [lia|].
  simpl. by rewrite Z.mod_small.
Qed.

Lemma to_bytes_1_overflow (n : Z) : 255 < n → to_bytes n 1 = Raise OverflowError.
Proof.
  intros Hn. unfold to_bytes.
  destruct (Z.ltb_spec n 0) as [?|_]; [lia|].
  destruct (Z.leb_spec (256 ^ Z.of_nat 1) n) as [_|?]; [done|lia].
Qed.

(** The address byte of a short frame: the polling address with the
    high bit set. *)
Lemma address_byte_range (a : Z) : 0 <= a <= 63 → is_byte (Z.lor 128 a).
Proof.
  intros Ha. split.
  - apply Z.lor_nonneg. lia.
  - apply (Z.log2_lt_pow2 _ 8).
    + assert (0 <= Z.lor 128 a) by (apply Z.lor_nonneg; lia).
      assert (Z.lor 128 a ≠ 0) by (intros E; apply Z.lor_eq_0_iff in E; lia).
      lia.
    + rewrite Z.log2_lor by lia.
      assert (Z.log2 a <= Z.log2 63) by (apply Z.log2_le_mono; lia).
      change (Z.log2 128) with 7. change (Z.log2 63) with 5 in *. lia.
Qed.

Lemma fold_lxor_acc (l : list Z) (acc : Z) :
  fold_left Z.lxor l acc = Z.lxor acc (fold_left Z.lxor l 0).
Proof.
  revert acc. induction l as [|y l IH]; intros acc.
  - cbn [fold_left]. by rewrite Z.lxor_0_r.
  - cbn [fold_left]. rewrite (IH (Z.lxor acc y)), (IH (Z.lxor 0 y)).
    by rewrite Z.lxor_0_l, Z.lxor_assoc.
Qed.

Lemma xor_bytes_cons (x : Z) (b : list Z) :
  xor_bytes (x :: b) = Z.lxor x (xor_bytes b).
Proof.
  unfold xor_bytes. cbn [fold_left].
  by rewrite fold_lxor_acc, Z.lxor_0_l.
Qed.

Lemma payload_field_length (data : pyval) :
  Z.of_nat (length (payload_field data)) = payload_len data.
Proof. destruct data; simpl; lia. Qed.

(** The frame built from well-formed arguments, byte for byte. *)
Lemma pack_short_frame_ok address a command_id c preamble_len data :
  address_arg address a → 0 <= a <= 63 →
  command_arg command_id c → is_byte c →
  payload_arg data →
  pack_short_frame address command_id preamble_len data
  = Ok ((bytes_repeat [255] preamble_len
           ++ [2; Z.lor 128 a; c] ++ payload_field data)
        ++ calculate_checksum
             (slice_from (bytes_repeat [255] preamble_len
                            ++ [2; Z.lor 128 a; c] ++ payload_field data)
                         preamble_len)).
Proof.
  intros Haddr Ha Hcmd Hc Hdata.
  pose proof (address_byte_range a Ha) as Hab.
  unfold pack_short_frame.
  assert (Hcid :
    match command_id with
    | PInt c0 => PBytes <$> to_bytes c0 1
    | _ => Ok command_id
    end = Ok (PBytes [c])).
  { destruct Hcmd as [-> | ->]; [|done]. by rewrite to_bytes_1. }
  rewrite Hcid. cbn [mbind result_bind].
  assert (Hor :
    py_or 128 match address with
              | PBytes b => PInt (from_bytes b)
              | _ => address
              end = Ok (Z.lor 128 a)).
  { destruct Haddr as [-> | (b & -> & <-)]; done. }
  rewrite Hor. cbn [mbind result_bind].
  rewrite (to_bytes_1 _ Hab). cbn [mbind result_bind bytes_iadd].
  destruct Hdata as [-> | (d & -> & Hd)].
  - cbn [mbind result_bind payload_field].
    by rewrite <- !app_assoc.
  - cbn [mbind result_bind payload_field py_len].
    rewrite to_bytes_1 by (unfold is_byte; lia).
    cbn [mbind result_bind bytes_iadd].
    by rewrite <- !app_assoc.
Qed.

(** C1, amended.  For an address in [0,63], a single-byte command id, a
    non-negative preamble length and a data payload of at most 255 bytes or
    no data, [pack_short_frame] returns a frame: its length is
    [preamble_len + 4 + (1 if no data else 1 + len(data))], it consists of
    the preamble, the bytes from the start delimiter through the data
    payload, and one final byte, and that final byte is the XOR of all the
    bytes from the start delimiter through the end of the data payload. *)
Theorem pack_short_frame_length_checksum
    address a command_id c preamble_len data :
  address_arg address a → 0 <= a <= 63 →
  command_arg command_id c → is_byte c →
  0 <= preamble_len →
  payload_arg data →
  ∃ frame,
    pack_short_frame address command_id preamble_len data = Ok frame
    ∧ Z.of_nat (length frame) = preamble_len + 4 + payload_len data
    ∧ (let covered := [2; Z.lor 128 a; c] ++ payload_field data in
       frame = bytes_repeat [255] preamble_len ++ covered
               ++ [xor_bytes covered])
    ∧ checksum_from_delimiter frame preamble_len.
Proof.
  intros Haddr Ha Hcmd Hc Hp Hdata.
  rewrite (pack_short_frame_ok _ a _ c) by done.
  rewrite slice_from_app
    by (done || apply bytes_repeat_singleton_length).
  eexists. split; [done|]. unfold calculate_checksum.
  split; [|split].
  - rewrite !length_app, bytes_repeat_singleton_length.
    cbn [length]. pose proof (payload_field_length data). lia.
  - cbn zeta. by rewrite <- app_assoc.
  - unfold checksum_from_delimiter.
    rewrite last_snoc, removelast_last.
    by rewrite slice_from_app
      by (done || apply bytes_repeat_singleton_length).
Qed.

Lemma pack_short_frame_length_checksum_witness :
  ∃ frame,
    pack_short_frame (PBytes [0; 5]) (PInt 7) 20 (PBytes [1; 2; 3]) = Ok frame
    ∧ Z.of_nat (length frame) = 20 + 4 + payload_len (PBytes [1; 2; 3])
    ∧ (let covered := [2; Z.lor 128 5; 7] ++ payload_field (PBytes [1; 2; 3]) in
       frame = bytes_repeat [255] 20 ++ covered ++ [xor_bytes covered])
    ∧ checksum_from_delimiter frame 20.
Proof.
  apply (pack_short_frame_length_checksum (PBytes [0; 5]) 5 (PInt 7) 7 20
           (PBytes [1; 2; 3])).
  - right. exists [0; 5]. split; reflexivity.
  - lia.
  - left. reflexivity.
  - unfold is_byte. lia.
  - lia.
  - right. exists [1; 2; 3]. split; [reflexivity | simpl; lia].
Defined.

(** What the packer does with a negative [preamble_len]: no preamble is
    emitted and the slice handed to the checksum counts from the end of the
    buffer, so neither the length formula nor the checksum coverage of the
    non-negative case applies. *)
Example pack_short_frame_negative_preamble :
  pack_short_frame (PInt 0) (PInt 0) (-2) PNone = Ok [2; 128; 0; 0; 0].
Proof. reflexivity. Qed.

(** C1, as stated for every [preamble_len], fails: at [preamble_len = -2]
    (address 0, command 0, no data) the frame has 5 bytes where the formula
    gives 3, and its last byte is 0 where the XOR of the bytes from the
    start delimiter through the byte count is 0x82. *)
Lemma pack_short_frame_negative_preamble_fails :
  ∃ frame,
    pack_short_frame (PInt 0) (PInt 0) (-2) PNone = Ok frame
    ∧ Z.of_nat (length frame) ≠ -2 + 4 + payload_len PNone
    ∧ last frame
      ≠ Some (xor_bytes ([2; Z.lor 128 0; 0] ++ payload_field PNone)).
Proof.
  exists [2; 128; 0; 0; 0]. split_and!.
  - reflexivity.
  - cbn. lia.
  - vm_compute. discriminate.
Qed.

(** C2, as stated, fails: for the identify frame (address 0, command 0, the
    default preamble, no data) the checksum byte is 0x82, while the XOR of
    the command id and the byte count alone is 0. *)
Lemma checksum_from_command_id_fails :
  ∃ frame,
    pack_short_frame (PInt 0) (PInt 0) 20 PNone = Ok frame
    ∧ last frame = Some 130
    ∧ xor_bytes (drop (Z.to_nat 20 + 2) (removelast frame)) = 0
    ∧ ¬ checksum_from_command_id frame 20.
Proof.
  exists command_0_frame. split_and!; [reflexivity..|].
  unfold checksum_from_command_id. vm_compute. discriminate.
Qed.

(** C2, amended.  For every frame produced by [pack_short_frame] from
    well-formed arguments, the checksum byte is the XOR over the bytes from
    the start delimiter onward: the start delimiter 0x02 and the address
    byte, XORed with the XOR of the command id, the byte count and the data
    payload. *)
Theorem pack_short_frame_checksum_coverage
    address a command_id c preamble_len data :
  address_arg address a → 0 <= a <= 63 →
  command_arg command_id c → is_byte c →
  0 <= preamble_len →
  payload_arg data →
  ∃ frame,
    pack_short_frame address command_id preamble_len data = Ok frame
    ∧ last frame
      = Some (Z.lxor (Z.lxor 2 (Z.lor 128 a))
                     (xor_bytes (c :: payload_field data))).
Proof.
  intros Haddr Ha Hcmd Hc Hp Hdata.
  rewrite (pack_short_frame_ok _ a _ c) by done.
  rewrite slice_from_app
    by (done || apply bytes_repeat_singleton_length).
  eexists. split; [done|]. unfold calculate_checksum.
  rewrite last_snoc. f_equal.
  change ([2; Z.lor 128 a; c] ++ payload_field data)
    with (2 :: Z.lor 128 a :: c :: payload_field data).
  rewrite (xor_bytes_cons 2), (xor_bytes_cons (Z.lor 128 a)).
  by rewrite Z.lxor_assoc.
Qed.

Lemma pack_short_frame_checksum_coverage_witness :
  ∃ frame,
    pack_short_frame (PInt 0) (PInt 0) 20 PNone = Ok frame
    ∧ last frame
      = Some (Z.lxor (Z.lxor 2 (Z.lor 128 0))
                     (xor_bytes (0 :: payload_field PNone))).
Proof.
  apply (pack_short_frame_checksum_coverage (PInt 0) 0 (PInt 0) 0 20 PNone).
  - left. reflexivity.
  - lia.
  - left. reflexivity.
  - unfold is_byte. lia.
  - lia.
  - left. reflexivity.
Defined.

(** C5, as stated, fails: with 256 bytes of data the packer does not
    produce a frame at all, it raises OverflowError. *)
Lemma oversized_payload_raises :
  pack_short_frame (PInt 0) (PInt 0) 20 (PBytes (repeat 0 256))
  = Raise OverflowError
  ∧ ¬ (∃ frame,
         pack_short_frame (PInt 0) (PInt 0) 20 (PBytes (repeat 0 256))
         = Ok frame).
Proof.
  assert (E : pack_short_frame (PInt 0) (PInt 0) 20 (PBytes (repeat 0 256))
              = Raise OverflowError) by (vm_compute; reflexivity).
  split; [exact E|]. intros [frame Hframe]. rewrite E in Hframe.
  discriminate Hframe.
Qed.

(** C5, amended.  For every data payload longer than 255 bytes,
    [pack_short_frame] never returns a frame; with an address in [0,63] and
    a single-byte command id it raises OverflowError, from the conversion
    of [len(data)] to the one-byte count. *)
Theorem pack_short_frame_oversized_payload
    address a command_id c preamble_len d :
  (255 < length d)%nat →
  (∀ frame,
     pack_short_frame address command_id preamble_len (PBytes d) ≠ Ok frame)
  ∧ (address_arg address a → 0 <= a <= 63 →
     command_arg command_id c → is_byte c →
     pack_short_frame address command_id preamble_len (PBytes d)
     = Raise OverflowError).
Proof.
  intros Hd.
  assert (Hcount : to_bytes (Z.of_nat (length d)) 1 = Raise OverflowError)
    by (apply to_bytes_1_overflow; lia).
  split.
  - intros frame. unfold pack_short_frame.
    destruct (match command_id with
              | PInt c0 => PBytes <$> to_bytes c0 1
              | _ => Ok command_id
              end) as [cid| |]; cbn [mbind result_bind]; [|done..].
    destruct (py_or 128 _) as [ai| |]; cbn [mbind result_bind]; [|done..].
    destruct (to_bytes ai 1) as [ab| |]; cbn [mbind result_bind]; [|done..].
    destruct (bytes_iadd _ cid) as [cmd| |]; cbn [mbind result_bind]; [|done..].
    cbn [mbind result_bind py_len]. by rewrite Hcount.
  - intros Haddr Ha Hcmd Hc.
    pose proof (address_byte_range a Ha) as Hab.
    unfold pack_short_frame.
    assert (Hcid :
      match command_id with
      | PInt c0 => PBytes <$> to_bytes c0 1
      | _ => Ok command_id
      end = Ok (PBytes [c])).
    { destruct Hcmd as [-> | ->]; [|done]. by rewrite to_bytes_1. }
    rewrite Hcid. cbn [mbind result_bind].
    assert (Hor :
      py_or 128 match address with
                | PBytes b => PInt (from_bytes b)
                | _ => address
                end = Ok (Z.lor 128 a)).
    { destruct Haddr as [-> | (b & -> & <-)]; done. }
    rewrite Hor. cbn [mbind result_bind].
    rewrite (to_bytes_1 _ Hab). cbn [mbind result_bind bytes_iadd py_len].
    by rewrite Hcount.
Qed.

Lemma pack_short_frame_oversized_payload_witness :
  (∀ frame,
     pack_short_frame (PInt 0) (PInt 0) 20 (PBytes (repeat 0 256)) ≠ Ok frame)
  ∧ pack_short_frame (PInt 0) (PInt 0) 20 (PBytes (repeat 0 256))
    = Raise OverflowError.
Proof.
  destruct (pack_short_frame_oversized_payload (PInt 0) 0 (PInt 0) 0 20
              (repeat 0 256)) as [Hnever Hraises].
  - rewrite repeat_length. lia.
  - split; [exact Hnever|].
    apply Hraises.
    + left. reflexivity.
    + lia.
    + left. reflexivity.
    + unfold is_byte. lia.
Defined.

(** ** The command exchanges *)

Lemma published_app (tr1 tr2 : list event) :
  published (tr1 ++ tr2) = published tr1 ++ published tr2.
Proof. apply omap_app. Qed.

Lemma machine_eta (st : machine) :
  mkMachine (self st) (unpacker st) (trace st) = st.
Proof. by destruct st. Qed.

(** Unfolding of the monadic combinators of [M] and of [result]. *)
Ltac run_monad :=
  cbv beta iota zeta delta
    [mbind M_bind result_bind mret M_ret result_ret fmap result_fmap
     lift raise emit get_field get_trace modify_self
     set_manufacturer_id set_manufacturer_device_type set_device_id
     set_long_address];
  cbn [self unpacker trace manufacturer_id manufacturer_device_type
       device_id long_address].

Lemma for_each_cons {A} (x : A) (xs : list A) (body : A → M unit) st :
  for_each (x :: xs) body st
  = match body x st with
    | (Ok _, st') => for_each xs body st'
    | (Raise e, st') => (Raise e, st')
    | (OutOfFuel, st') => (OutOfFuel, st')
    end.
Proof. reflexivity. Qed.

Lemma for_fold_cons {A B} (x : A) (xs : list A) (acc : B)
    (body : B → A → M B) st :
  for_fold (x :: xs) acc body st
  = match body acc x st with
    | (Ok acc', st') => for_fold xs acc' body st'
    | (Raise e, st') => (Raise e, st')
    | (OutOfFuel, st') => (OutOfFuel, st')
    end.
Proof. reflexivity. Qed.

Section Session.
Context `{HartTools}.

(** The loop of [run_command_3] computes [read_messages], touches neither
    the session nor the stream, and only logs. *)
Lemma run_command_3_loop (msgs : list message) :
  ∀ (data : gmap string pyval) (st : machine),
  ∃ evs,
    for_fold msgs data run_command_3_body st
    = (read_messages msgs data,
       mkMachine (self st) (unpacker st) (trace st ++ evs))
    ∧ published evs = [].
Proof.
  induction msgs as [|msg msgs IH]; intros data st.
  - exists []. by rewrite app_nil_r, machine_eta.
  - rewrite for_fold_cons. cbn [read_messages].
    unfold run_command_3_body. run_monad.
    destruct (getattr msg "primary_variable") as [p| |];
      [|exists []; by rewrite app_nil_r, machine_eta..].
    destruct (getattr msg "secondary_variable") as [s| |];
      [|exists []; by rewrite app_nil_r, machine_eta..].
    edestruct IH as (evs & -> & Hevs).
    exists (LogResponse msg :: evs). cbn [self unpacker trace].
    split; [|done]. by rewrite <- app_assoc.
Qed.

(** [run_command_3] in one equation: its outcome is [reading_of] the long
    address and the next batch of the stream; the session is left as it
    was, the stream loses at most that batch, nothing is published. *)
Lemma run_command_3_spec (st : machine) :
  ∃ st' evs,
    run_command_3 st
    = (reading_of (long_address (self st)) (hd [] (unpacker st)), st')
    ∧ self st' = self st
    ∧ (unpacker st' = unpacker st ∨ unpacker st' = tail (unpacker st))
    ∧ trace st' = trace st ++ evs
    ∧ published evs = [].
Proof.
  unfold run_command_3, reading_of. run_monad.
  destruct (pack_command (long_address (self st)) 3) as [frame| |];
    [|by eexists _, _; split_and!; [done|done|left|done|]..].
  assert (Hdrain : ∃ later,
    drain {| self := self st; unpacker := unpacker st;
             trace := ((trace st ++ [LogDebug "Send command 3"])
                       ++ [SerialWrite frame]) ++ [Sleep STO] |}
    = (Ok (hd [] (unpacker st)),
       {| self := self st; unpacker := later;
          trace := ((trace st ++ [LogDebug "Send command 3"])
                    ++ [SerialWrite frame]) ++ [Sleep STO] |})
    ∧ (later = unpacker st ∨ later = tail (unpacker st))).
  { unfold drain. cbn [self unpacker trace].
    destruct (unpacker st) as [|batch later]; eexists; split; eauto. }
  destruct Hdrain as (later & -> & Hlater).
  edestruct (run_command_3_loop (hd [] (unpacker st)) empty_reading)
    as (evs & -> & Hevs).
  cbn [self unpacker trace].
  destruct (read_messages (hd [] (unpacker st)) empty_reading) as [data| |];
    [|eexists _, _; split_and!; [done|done|done|by rewrite <- !app_assoc|];
      cbn; by rewrite ?published_app, ?Hevs..].
  destruct (getitem data "secondary") as [v| |];
    [|eexists _, _; split_and!; [done|done|done|by rewrite <- !app_assoc|];
      cbn; by rewrite ?published_app, ?Hevs..].
  destruct (py_mul v 1000000) as [w| |];
    [|eexists _, _; split_and!; [done|done|done|by rewrite <- !app_assoc|];
      cbn; by rewrite ?published_app, ?Hevs..].
  eexists _, _; split_and!; [done|done|done|by rewrite <- !app_assoc|].
  cbn. by rewrite ?published_app, ?Hevs.
Qed.

(** The loop only ever writes the keys [primary] and [secondary]. *)
Lemma read_messages_frame (msgs : list message) :
  ∀ (d0 d1 : gmap string pyval),
  read_messages msgs d0 = Ok d1 →
  "primary" ∈ dom d0 → "secondary" ∈ dom d0 →
  dom d1 = dom d0
  ∧ ∀ k, k ≠ "primary" → k ≠ "secondary" → d1 !! k = d0 !! k.
Proof.
  induction msgs as [|msg msgs IH]; intros d0 d1 Hread Hp Hs.
  - injection Hread as <-. done.
  - cbn [read_messages] in Hread.
    destruct (getattr msg "primary_variable") as [p| |]; [|done..].
    destruct (getattr msg "secondary_variable") as [s| |]; [|done..].
    cbn [mbind result_bind] in Hread.
    apply IH in Hread as [Hdom Hother].
    + split.
      * rewrite Hdom, !dom_insert_L. set_solver.
      * intros k Hk1 Hk2. rewrite Hother by done.
        by rewrite !lookup_insert_ne.
    + rewrite !dom_insert_L. set_solver.
    + rewrite !dom_insert_L. set_solver.
Qed.

(** With no message the starting dict comes back; a last message that has
    the two variables overwrites whatever the earlier ones left. *)
Lemma read_messages_snoc (msgs : list message) (msg : message) p s :
  msg !! "primary_variable" = Some p →
  msg !! "secondary_variable" = Some s →
  ∀ d0 : gmap string pyval,
  Forall command_3_response msgs →
  ∃ d1, read_messages (msgs ++ [msg]) d0 = Ok d1
        ∧ d1 !! "primary" = Some p ∧ d1 !! "secondary" = Some s.
Proof.
  intros Hp Hs d0 Hall. revert d0.
  induction Hall as [|m msgs [[p' Hp'] [s' Hs']] _ IH]; intros d0.
  - cbn [app read_messages]. unfold getattr. rewrite Hp, Hs.
    eexists. split; [done|]. by simplify_map_eq.
  - cbn [app read_messages]. unfold getattr at 1 2. rewrite Hp', Hs'.
    apply IH.
Qed.

Lemma empty_reading_dom :
  dom empty_reading
  = ({["primary"; "primary_units"; "secondary"; "secondary_units"]}
     : gset string).
Proof. unfold empty_reading. rewrite !dom_insert_L. set_solver. Qed.

(** C8.  The outcome of [run_command_3] is a function of the long address
    and of the drained message sequence only: two calls that agree on these
    return the same outcome whatever the rest of the session and of the
    machine; a call leaves every field of the session as it was; and a
    second call against a decoder that yields the same sequence again
    returns what the first returned. *)
Theorem run_command_3_idempotent :
  (∀ st1 st2,
     long_address (self st1) = long_address (self st2) →
     hd [] (unpacker st1) = hd [] (unpacker st2) →
     (run_command_3 st1).1 = (run_command_3 st2).1)
  ∧ (∀ st, self (run_command_3 st).2 = self st)
  ∧ (∀ st msgs later,
       unpacker st = msgs :: msgs :: later →
       (run_command_3 (run_command_3 st).2).1 = (run_command_3 st).1).
Proof.
  split_and!.
  - intros st1 st2 Haddr Hmsgs.
    destruct (run_command_3_spec st1) as (? & ? & -> & _).
    destruct (run_command_3_spec st2) as (? & ? & -> & _).
    cbn [fst]. by rewrite Haddr, Hmsgs.
  - intros st.
    destruct (run_command_3_spec st) as (? & ? & -> & Hself & _).
    exact Hself.
  - intros st msgs later Hst.
    destruct (run_command_3_spec st) as (st' & ? & -> & Hself & Hstream & _).
    cbn [fst snd].
    destruct (run_command_3_spec st') as (? & ? & -> & _).
    cbn [fst]. rewrite Hself. f_equal.
    destruct Hstream as [-> | ->]; by rewrite Hst.
Qed.

(** The outcome at zero decoded messages, on which C4 fails: once the
    command is sent the dict still holds [None] under [secondary], and
    scaling it raises TypeError, so no reading is returned. *)
Theorem run_command_3_no_response (st : machine) (frame : list Z) :
  hd [] (unpacker st) = [] →
  pack_command (long_address (self st)) 3 = Ok frame →
  (run_command_3 st).1 = Raise TypeError.
Proof.
  intros Hmsgs Hframe.
  destruct (run_command_3_spec st) as (? & ? & -> & _).
  cbn [fst]. unfold reading_of. by rewrite Hmsgs, Hframe.
Qed.

(** C10.  Whenever [run_command_3] returns a record, its keys are exactly
    [primary], [primary_units], [secondary] and [secondary_units], and the
    two unit entries are [None] whatever the decoded messages were. *)
Theorem run_command_3_record_shape (st st' : machine)
    (data : gmap string pyval) :
  run_command_3 st = (Ok data, st') →
  dom data = {["primary"; "primary_units"; "secondary"; "secondary_units"]}
  ∧ data !! "primary_units" = Some PNone
  ∧ data !! "secondary_units" = Some PNone.
Proof.
  intros Hrun.
  destruct (run_command_3_spec st) as (? & ? & Hspec & _).
  rewrite Hspec in Hrun. injection Hrun as Hread _.
  unfold reading_of in Hread.
  destruct (pack_command _ 3) as [frame| |]; [|done..].
  cbn [mbind result_bind] in Hread.
  destruct (read_messages _ empty_reading) as [d1| |] eqn:Hd1; [|done..].
  cbn [mbind result_bind] in Hread.
  destruct (getitem d1 "secondary") as [v| |]; [|done..].
  cbn [mbind result_bind] in Hread.
  destruct (py_mul v 1000000) as [w| |]; [|done..].
  injection Hread as <-.
  apply read_messages_frame in Hd1 as [Hdom Hother];
    [|rewrite empty_reading_dom; set_solver..].
  split_and!.
  - rewrite dom_insert_L, Hdom, empty_reading_dom. set_solver.
  - rewrite lookup_insert_ne by done. by rewrite Hother.
  - rewrite lookup_insert_ne by done. by rewrite Hother.
Qed.

Lemma is_None_true (v : pyval) : is_None v = true ↔ v = PNone.
Proof. destruct v; cbn; split; congruence. Qed.

(** A loop that only logs the responses. *)
Lemma log_responses_loop (msgs : list message) (st : machine) :
  for_each msgs (λ msg, emit (LogResponse msg)) st
  = (Ok (),
     mkMachine (self st) (unpacker st) (trace st ++ map LogResponse msgs)).
Proof.
  revert st. induction msgs as [|msg msgs IH]; intros st.
  - cbn [for_each map]. run_monad. by rewrite app_nil_r, machine_eta.
  - rewrite for_each_cons. run_monad. rewrite IH.
    cbn [self unpacker trace map]. by rewrite <- app_assoc.
Qed.

(** C9.  [run_command_1] leaves the session state as it was: whatever the
    call does (return or raise), the manufacturer id, device type, device
    id and long address after it are those before it. *)
Theorem run_command_1_preserves_session (st : machine) :
  self (run_command_1 st).2 = self st
  ∧ manufacturer_id (self (run_command_1 st).2) = manufacturer_id (self st)
  ∧ manufacturer_device_type (self (run_command_1 st).2)
    = manufacturer_device_type (self st)
  ∧ device_id (self (run_command_1 st).2) = device_id (self st)
  ∧ long_address (self (run_command_1 st).2) = long_address (self st).
Proof.
  assert (Hself : self (run_command_1 st).2 = self st).
  { unfold run_command_1. run_monad.
    destruct (pack_command (long_address (self st)) 1) as [frame| |];
      [|done..].
    unfold drain. cbn [self unpacker trace].
    destruct (unpacker st) as [|batch later]; rewrite log_responses_loop;
      done. }
  by rewrite Hself.
Qed.

(** The frame of command 0 does not depend on anything. *)
Lemma command_0_frame_packed :
  pack_short_frame (PInt 0) (PInt 0) 20 PNone = Ok command_0_frame.
Proof. reflexivity. Qed.

(** [run_command_0] split at its loop. *)
Lemma run_command_0_unfold (st : machine) :
  run_command_0 st
  = match for_each (hd [] (unpacker st)) run_command_0_body
            (mkMachine (self st) (tail (unpacker st))
               (trace st ++ [SerialWrite command_0_frame;
                             LogDebug "Send command 0"; Sleep STO]))
    with
    | (Ok _, st') => run_command_0_conclude st'
    | (Raise e, st') => (Raise e, st')
    | (OutOfFuel, st') => (OutOfFuel, st')
    end.
Proof.
  unfold run_command_0. rewrite command_0_frame_packed. run_monad.
  unfold drain. cbn [self unpacker trace]. rewrite <- !app_assoc.
  by destruct (unpacker st) as [|batch later].
Qed.

(** The end of [run_command_0]: [False] exactly when an identity field is
    unset, in which case nothing changes; otherwise the long address of the
    three fields is stored. *)
Lemma run_command_0_conclude_spec (st st' : machine) (b : bool) :
  run_command_0_conclude st = (Ok b, st') →
  (b = false ↔
     manufacturer_id (self st') = PNone
     ∨ manufacturer_device_type (self st') = PNone
     ∨ device_id (self st') = PNone)
  ∧ (b = false → st' = st)
  ∧ (b = true →
     calculate_long_address (manufacturer_id (self st'))
       (manufacturer_device_type (self st')) (device_id (self st'))
     = Ok (long_address (self st'))
     ∧ unpacker st' = unpacker st ∧ trace st' = trace st).
Proof.
  unfold run_command_0_conclude. run_monad.
  destruct (is_None (manufacturer_id (self st))
            || is_None (manufacturer_device_type (self st))
            || is_None (device_id (self st))) eqn:Hnone.
  - intros [= <- <-]. split_and!; [|done..].
    split; [intros _|done].
    rewrite !orb_true_iff, !is_None_true in Hnone. tauto.
  - destruct (calculate_long_address _ _ _) as [a| |] eqn:Hcalc; [|done..].
    intros [= <- <-]. cbn [self manufacturer_id manufacturer_device_type
                            device_id long_address unpacker trace].
    rewrite !orb_false_iff in Hnone. destruct Hnone as [[Hm Ht] Hd].
    split_and!; [|done..].
    split; [done|].
    intros [E|[E|E]]; apply is_None_true in E; congruence.
Qed.

(** The body of the loop of [run_command_0] leaves the stream alone and
    emits nothing that belongs to the later stages. *)
Lemma run_command_0_loop (msgs : list message) :
  ∀ st r st',
  for_each msgs run_command_0_body st = (r, st') →
  unpacker st' = unpacker st
  ∧ ∃ evs, trace st' = trace st ++ evs
           ∧ Forall (λ e, after_identification e = false) evs.
Proof.
  induction msgs as [|msg msgs IH]; intros st r st'.
  - intros [= <- <-]. split; [done|]. exists []. by rewrite app_nil_r.
  - rewrite for_each_cons. unfold run_command_0_body at 1. run_monad.
    assert (Hstop : ∀ (r0 : result ()),
      (r0, {| self := self st; unpacker := unpacker st;
              trace := trace st ++ [LogResponse msg] |}) = (r, st') →
      unpacker st' = unpacker st
      ∧ ∃ evs, trace st' = trace st ++ evs
               ∧ Forall (λ e, after_identification e = false) evs).
    { intros r0 [= <- <-]. split; [done|]. exists [LogResponse msg].
      split; [done|]. by repeat constructor. }
    destruct (getattr msg "manufacturer_id") as [m| |]; [|by apply Hstop..].
    clear Hstop.
    assert (Hstop : ∀ (r0 : result ()) s0,
      (r0, {| self := s0; unpacker := unpacker st;
              trace := trace st ++ [LogResponse msg] |}) = (r, st') →
      unpacker st' = unpacker st
      ∧ ∃ evs, trace st' = trace st ++ evs
               ∧ Forall (λ e, after_identification e = false) evs).
    { intros r0 s0 [= <- <-]. split; [done|]. exists [LogResponse msg].
      split; [done|]. by repeat constructor. }
    destruct (getattr msg "manufacturer_device_type") as [t| |];
      [|by apply Hstop..].
    destruct (getattr msg "device_id") as [d| |]; [|by apply Hstop..].
    destruct (py_to_bytes d 3) as [b| |]; [|by apply Hstop..].
    intros Hrest. apply IH in Hrest as (Hstream & evs & Htrace & Hevs).
    cbn [self unpacker trace] in *. split; [done|].
    exists (LogResponse msg :: evs). split.
    + by rewrite Htrace, <- app_assoc.
    + by constructor.
Qed.


End Session.

(** ** The orchestrator *)

Section Orchestrator.
Context `{HartTools} `{MqttBroker}.

(** A call of [Client.publish] hands the message to the broker and prints
    one line. *)
Lemma Client_publish_spec (topic : string) (v : pyval) (st : machine) :
  ∃ line,
    Client_publish topic v st
    = (Ok (),
       mkMachine (self st) (unpacker st)
         (trace st ++ [MqttPublish topic v; line]))
    ∧ published [line] = [].
Proof.
  unfold Client_publish. run_monad.
  destruct (publish_status (trace st) topic v =? 0); run_monad;
    rewrite <- app_assoc; eexists; split; done.
Qed.


(** C7.  If [run_command_0] returns [False] on the session [run] has just
    created, [run] ends there by raising SystemExit: every event it has
    performed precedes the later stages (no MQTT connection is made, no
    network loop is started, nothing is published, neither [run_command_1]
    nor [run_command_3] is entered), whatever the fuel.  With zero decoded
    responses to command 0 this is what happens, and the whole run is: open
    the port, send command 0, wait, log the failure, exit. *)
Theorem run_exits_before_mqtt
    (fuel : nat) (port username password broker : string) (broker_port : Z)
    (st : machine) :
  ((run_command_0 (SimpleMaster_init port st).2).1 = Ok false →
   ∃ st' evs,
     run fuel port username password broker broker_port st
     = (Raise SystemExit, st')
     ∧ trace st' = trace st ++ evs
     ∧ Forall (λ e, after_identification e = false) evs
     ∧ published evs = [])
  ∧ (hd [] (unpacker st) = [] →
     (run_command_0 (SimpleMaster_init port st).2).1 = Ok false
     ∧ run fuel port username password broker broker_port st
       = (Raise SystemExit,
          mkMachine unidentified (tail (unpacker st))
            (trace st ++ [SerialOpen port; SerialWrite command_0_frame;
                          LogDebug "Send command 0"; Sleep STO;
                          LogDebug
                            "Failed to find and connect to the device."]))).
Proof.
  assert (Hinit : SimpleMaster_init port st
          = (Ok (), mkMachine unidentified (unpacker st)
                      (trace st ++ [SerialOpen port]))) by reflexivity.
  rewrite Hinit. cbn [snd]. unfold run.
  cbv beta iota zeta delta [mbind M_bind]. rewrite Hinit.
  split.
  - destruct (run_command_0 _) as [r0 st2] eqn:Hrun0. cbn [fst].
    intros ->.
    rewrite run_command_0_unfold in Hrun0. cbn [self unpacker trace] in Hrun0.
    destruct (for_each _ _ _) as [[[]| |] st1] eqn:Hloop; [|done..].
    apply run_command_0_loop in Hloop as (_ & evs & Htr & Hevs).
    cbn [self unpacker trace] in Htr.
    apply run_command_0_conclude_spec in Hrun0 as (_ & Hsame & _).
    rewrite (Hsame eq_refl). cbn [negb]. run_monad.
    eexists _, _. split; [done|]. rewrite Htr, <- !app_assoc.
    split; [done|].
    assert (Hall : Forall (λ e, after_identification e = false)
      ([SerialOpen port]
       ++ [SerialWrite command_0_frame; LogDebug "Send command 0"; Sleep STO]
       ++ evs
       ++ [LogDebug "Failed to find and connect to the device."])).
    { rewrite !Forall_app. split_and!; [| |done|]; by repeat constructor. }
    split; [done|].
    clear -Hall. induction Hall as [|e l He _ IH]; [done|].
    destruct e; cbn in He |- *; (done || exact IH).
  - intros Hmsgs.
    rewrite run_command_0_unfold. cbn [self unpacker trace].
    rewrite Hmsgs. cbn [for_each]. run_monad.
    unfold run_command_0_conclude. run_monad. cbn.
    by rewrite <- !app_assoc.
Qed.

End Orchestrator.

(** ** The theorems on concrete runs *)


Lemma run_command_3_no_response_witness :
  (@run_command_3 Stub.tools (Stub.identified [])).1 = Raise TypeError.
Proof.
  apply (@run_command_3_no_response Stub.tools (Stub.identified [])
           [255; 255; 255; 255; 255; 130; 129; 2; 0; 0; 3; 3; 0; 1]);
    reflexivity.
Defined.

Lemma run_command_3_idempotent_witness :
  let batch := [Stub.earlier_response; Stub.reading_response] in
  let st := Stub.identified [batch; batch] in
  (@run_command_3 Stub.tools (@run_command_3 Stub.tools st).2).1
  = (@run_command_3 Stub.tools st).1
  ∧ self (@run_command_3 Stub.tools st).2 = self st
  ∧ (@run_command_3 Stub.tools st).1
    = (@run_command_3 Stub.tools
         (mkMachine
            (mkSimpleMaster PNone (PInt 5) PNone (PBytes [1; 2; 0; 0; 3]))
            [batch] [Sleep STO])).1.
Proof.
  cbv zeta.
  destruct (@run_command_3_idempotent Stub.tools) as (Hsame & Hself & Hagain).
  split_and!.
  - apply (Hagain _ [Stub.earlier_response; Stub.reading_response] []).
    reflexivity.
  - apply Hself.
  - apply Hsame; reflexivity.
Defined.

Lemma run_command_3_record_shape_witness :
  ∃ data st',
    @run_command_3 Stub.tools
      (Stub.identified [[Stub.earlier_response; Stub.reading_response]])
    = (Ok data, st')
    ∧ dom data = {["primary"; "primary_units"; "secondary"; "secondary_units"]}
    ∧ data !! "primary_units" = Some PNone
    ∧ data !! "secondary_units" = Some PNone.
Proof.
  destruct (@run_command_3 Stub.tools
              (Stub.identified [[Stub.earlier_response; Stub.reading_response]]))
    as [[data| |] st'] eqn:Hrun; [|vm_compute in Hrun; discriminate Hrun..].
  exists data, st'. split; [reflexivity|].
  exact (@run_command_3_record_shape Stub.tools _ _ _ Hrun).
Defined.

Lemma run_exits_before_mqtt_witness :
  (∃ st' evs,
     @run Stub.tools Stub.broker 3 "/dev/pts/1" "user" "secret" "host" 1883
       (Stub.fresh [])
     = (Raise SystemExit, st')
     ∧ trace st' = trace (Stub.fresh []) ++ evs
     ∧ Forall (λ e, after_identification e = false) evs
     ∧ published evs = [])
  ∧ (@run_command_0 Stub.tools
       (SimpleMaster_init "/dev/pts/1" (Stub.fresh [])).2).1 = Ok false
  ∧ @run Stub.tools Stub.broker 3 "/dev/pts/1" "user" "secret" "host" 1883
      (Stub.fresh [])
    = (Raise SystemExit,
       mkMachine unidentified []
         [SerialOpen "/dev/pts/1"; SerialWrite command_0_frame;
          LogDebug "Send command 0"; Sleep STO;
          LogDebug "Failed to find and connect to the device."]).
Proof.
  destruct (@run_exits_before_mqtt Stub.tools Stub.broker
              3 "/dev/pts/1" "user" "secret" "host" 1883 (Stub.fresh []))
    as [Hgeneral Hzero].
  split.
  - apply Hgeneral. reflexivity.
  - apply Hzero. reflexivity.
Defined.

(** ** Further properties of the frame codec *)

Lemma xor_bytes_app (b1 b2 : list Z) :
  xor_bytes (b1 ++ b2) = Z.lxor (xor_bytes b1) (xor_bytes b2).
Proof.
  induction b1 as [|x b1 IH]; cbn [app].
  - done.
  - by rewrite !xor_bytes_cons, IH, Z.lxor_assoc.
Qed.

Lemma log2_byte (x : Z) : is_byte x → Z.log2 x < 8.
Proof.
  intros [Hlo Hhi]. destruct (Z.eq_dec x 0) as [->|Hx]; [done|].
  apply Z.log2_lt_pow2; lia.
Qed.

Lemma lt_256_of_log2 (x : Z) : 0 <= x → Z.log2 x < 8 → is_byte x.
Proof.
  intros Hlo Hlog. split; [done|].
  destruct (Z.eq_dec x 0) as [->|Hx]; [done|].
  apply (Z.log2_lt_pow2 x 8); lia.
Qed.

Lemma lxor_byte (x y : Z) : is_byte x → is_byte y → is_byte (Z.lxor x y).
Proof.
  intros Hx Hy. apply lt_256_of_log2.
  - apply Z.lxor_nonneg. unfold is_byte in *. lia.
  - pose proof (Z.log2_lxor x y (proj1 Hx) (proj1 Hy)).
    pose proof (log2_byte x Hx). pose proof (log2_byte y Hy). lia.
Qed.

Lemma lor_byte (x y : Z) : is_byte x → is_byte y → is_byte (Z.lor x y).
Proof.
  intros Hx Hy. apply lt_256_of_log2.
  - apply Z.lor_nonneg. unfold is_byte in *. lia.
  - rewrite Z.log2_lor by (unfold is_byte in *; lia).
    pose proof (log2_byte x Hx). pose proof (log2_byte y Hy). lia.
Qed.

Lemma xor_bytes_byte (b : list Z) : Forall is_byte b → is_byte (xor_bytes b).
Proof.
  induction 1 as [|x b Hx _ IH].
  - unfold is_byte. cbn. lia.
  - rewrite xor_bytes_cons. by apply lxor_byte.
Qed.

(** On a seven-bit address setting the high bit is adding 128. *)
Lemma lor_128_add (a : Z) : 0 <= a < 128 → Z.lor 128 a = 128 + a.
Proof.
  intros Ha.
  assert (Hland : Z.land 128 a = 0).
  { apply Z.bits_inj'. intros n Hn. rewrite Z.land_spec, Z.bits_0.
    destruct (Z.eq_dec n 7) as [->|Hn7].
    - destruct (Z.eq_dec a 0) as [->|Ha0]; [done|].
      rewrite (Z.bits_above_log2 a 7); [apply andb_false_r|lia|].
      apply Z.log2_lt_pow2; lia.
    - replace (Z.testbit 128 n) with false; [done|].
      symmetry. change 128 with (2 ^ 7). by apply Z.pow2_bits_false. }
  rewrite <- Z.lxor_lor by done. symmetry. by apply Z.add_nocarry_lxor.
Qed.

(** The frame for any address whose byte fits, byte for byte. *)
Lemma pack_short_frame_shape address a command_id c preamble_len data :
  address_arg address a → is_byte (Z.lor 128 a) →
  command_arg command_id c → is_byte c →
  payload_arg data →
  pack_short_frame address command_id preamble_len data
  = Ok ((bytes_repeat [255] preamble_len
           ++ [2; Z.lor 128 a; c] ++ payload_field data)
        ++ [xor_bytes
              (slice_from (bytes_repeat [255] preamble_len
                             ++ [2; Z.lor 128 a; c] ++ payload_field data)
                          preamble_len)]).
Proof.
  intros Haddr Hab Hcmd Hc Hdata.
  unfold pack_short_frame.
  assert (Hcid :
    match command_id with
    | PInt c0 => PBytes <$> to_bytes c0 1
    | _ => Ok command_id
    end = Ok (PBytes [c])).
  { destruct Hcmd as [-> | ->]; [|done]. by rewrite to_bytes_1. }
  rewrite Hcid. cbn [mbind result_bind].
  assert (Hor :
    py_or 128 match address with
              | PBytes b => PInt (from_bytes b)
              | _ => address
              end = Ok (Z.lor 128 a)).
  { destruct Haddr as [-> | (b & -> & <-)]; done. }
  rewrite Hor. cbn [mbind result_bind].
  rewrite (to_bytes_1 _ Hab). cbn [mbind result_bind bytes_iadd].
  destruct Hdata as [-> | (d & -> & Hd)].
  - cbn [mbind result_bind payload_field].
    by rewrite <- !app_assoc.
  - cbn [mbind result_bind payload_field py_len].
    rewrite to_bytes_1 by (unfold is_byte; lia).
    cbn [mbind result_bind bytes_iadd].
    by rewrite <- !app_assoc.
Qed.

(** The high bit of an integer address is lost: an address and the same
    address with bit 7 set are packed into the same frame, or fail alike,
    whatever the other arguments. *)
Theorem pack_short_frame_address_high_bit
    (a : Z) (command_id : pyval) (preamble_len : Z) (data : pyval) :
  pack_short_frame (PInt (Z.lor 128 a)) command_id preamble_len data
  = pack_short_frame (PInt a) command_id preamble_len data.
Proof.
  unfold pack_short_frame. cbn [py_or].
  by rewrite Z.lor_assoc, Z.lor_diag.
Qed.

(** The address is not validated against the polling range but it has to
    fit the address byte: with a well-formed command id and payload, an
    integer address yields a frame exactly when it lies in [0,255], and
    raises OverflowError otherwise. *)
Theorem pack_short_frame_address_range
    (a : Z) command_id c (preamble_len : Z) data :
  command_arg command_id c → is_byte c → payload_arg data →
  (0 <= a <= 255 →
   ∃ frame, pack_short_frame (PInt a) command_id preamble_len data = Ok frame)
  ∧ (a < 0 ∨ 255 < a →
     pack_short_frame (PInt a) command_id preamble_len data
     = Raise OverflowError).
Proof.
  intros Hcmd Hc Hdata. split.
  - intros Ha. eexists.
    apply (pack_short_frame_shape _ a _ c); [by left| |done..].
    apply lor_byte; unfold is_byte; lia.
  - intros Ha. unfold pack_short_frame.
    assert (Hcid :
      match command_id with
      | PInt c0 => PBytes <$> to_bytes c0 1
      | _ => Ok command_id
      end = Ok (PBytes [c])).
    { destruct Hcmd as [-> | ->]; [|done]. by rewrite to_bytes_1. }
    rewrite Hcid. cbn [mbind result_bind py_or].
    assert (Hover : to_bytes (Z.lor 128 a) 1 = Raise OverflowError).
    { destruct Ha as [Hneg|Hbig].
      - unfold to_bytes.
        assert (Z.lor 128 a < 0) by (apply Z.lor_neg; lia).
        destruct (Z.ltb_spec (Z.lor 128 a) 0); [done|lia].
      - apply to_bytes_1_overflow.
        assert (Hnn : 0 <= Z.lor 128 a) by (apply Z.lor_nonneg; lia).
        destruct (Z.le_gt_cases (Z.lor 128 a) 255) as [Hle|]; [|lia].
        assert (Hlog : Z.log2 (Z.lor 128 a) < 8)
          by (apply log2_byte; unfold is_byte; lia).
        rewrite Z.log2_lor in Hlog by lia.
        assert (8 <= Z.log2 a) by (apply Z.log2_le_pow2; lia).
        lia. }
    by rewrite Hover.
Qed.

Lemma pack_short_frame_address_range_witness :
  (∃ frame, pack_short_frame (PInt 200) (PInt 3) 5 PNone = Ok frame)
  ∧ pack_short_frame (PInt 256) (PInt 3) 5 PNone = Raise OverflowError
  ∧ pack_short_frame (PInt (-1)) (PInt 3) 5 PNone = Raise OverflowError.
Proof.
  assert (Hc : command_arg (PInt 3) 3) by (left; reflexivity).
  assert (Hb : is_byte 3) by (unfold is_byte; lia).
  assert (Hd : payload_arg PNone) by (left; reflexivity).
  split_and!.
  - apply (proj1 (pack_short_frame_address_range 200 (PInt 3) 3 5 PNone
                    Hc Hb Hd)). lia.
  - apply (proj2 (pack_short_frame_address_range 256 (PInt 3) 3 5 PNone
                    Hc Hb Hd)). lia.
  - apply (proj2 (pack_short_frame_address_range (-1) (PInt 3) 3 5 PNone
                    Hc Hb Hd)). lia.
Defined.

Lemma bytes_repeat_255_bytes (n : Z) : Forall is_byte (bytes_repeat [255] n).
Proof.
  unfold bytes_repeat. induction (Z.to_nat n) as [|k IH]; cbn; [done|].
  constructor; [unfold is_byte; lia|done].
Qed.

Lemma slice_from_bytes (b : list Z) (start : Z) :
  Forall is_byte b → Forall is_byte (slice_from b start).
Proof. intros Hb. unfold slice_from. by apply Forall_drop. Qed.

(** Every frame the packer returns from byte-valued arguments is itself a
    byte string: the preamble, the address byte, the count and the checksum
    all lie in [0,255], for every preamble length. *)
Theorem pack_short_frame_is_bytes
    address a command_id c (preamble_len : Z) data :
  address_arg address a → 0 <= a <= 255 →
  command_arg command_id c → is_byte c →
  payload_arg data →
  (∀ d, data = PBytes d → Forall is_byte d) →
  ∃ frame,
    pack_short_frame address command_id preamble_len data = Ok frame
    ∧ Forall is_byte frame.
Proof.
  intros Haddr Ha Hcmd Hc Hdata Hd.
  assert (Hab : is_byte (Z.lor 128 a))
    by (apply lor_byte; unfold is_byte; lia).
  rewrite (pack_short_frame_shape _ a _ c) by done.
  eexists. split; [done|].
  assert (Hpayload : Forall is_byte (payload_field data)).
  { destruct Hdata as [-> | (d & -> & Hlen)]; cbn [payload_field].
    - constructor; [unfold is_byte; lia|done].
    - constructor; [unfold is_byte; lia|by apply Hd]. }
  assert (Hbody : Forall is_byte
    (bytes_repeat [255] preamble_len
     ++ [2; Z.lor 128 a; c] ++ payload_field data)).
  { rewrite !Forall_app. split_and!;
      [apply bytes_repeat_255_bytes| |done].
    apply Forall_cons; split; [unfold is_byte; lia|].
    apply Forall_cons; split; [done|].
    apply Forall_cons; split; [done|]. apply Forall_nil_2. }
  rewrite Forall_app. split; [done|].
  constructor; [|done].
  by apply xor_bytes_byte, slice_from_bytes.
Qed.

Lemma pack_short_frame_is_bytes_witness :
  ∃ frame,
    pack_short_frame (PInt 0) (PBytes [3]) 20 (PBytes [17; 255]) = Ok frame
    ∧ Forall is_byte frame.
Proof.
  apply (pack_short_frame_is_bytes (PInt 0) 0 (PBytes [3]) 3 20
           (PBytes [17; 255])).
  - left. reflexivity.
  - lia.
  - right. reflexivity.
  - unfold is_byte. lia.
  - right. exists [17; 255]. split; [reflexivity|cbn; lia].
  - intros d [= <-]. repeat constructor; unfold is_byte; lia.
Defined.

(** The receiver's check: in a frame packed with a non-negative preamble
    length, the XOR of everything after the preamble, checksum included,
    is zero. *)
Theorem pack_short_frame_parity
    address a command_id c (preamble_len : Z) data :
  address_arg address a → 0 <= a <= 255 →
  command_arg command_id c → is_byte c →
  0 <= preamble_len →
  payload_arg data →
  ∃ frame,
    pack_short_frame address command_id preamble_len data = Ok frame
    ∧ xor_bytes (slice_from frame preamble_len) = 0.
Proof.
  intros Haddr Ha Hcmd Hc Hp Hdata.
  assert (Hab : is_byte (Z.lor 128 a))
    by (apply lor_byte; unfold is_byte; lia).
  rewrite (pack_short_frame_shape _ a _ c) by done.
  eexists. split; [done|].
  rewrite (slice_from_app (bytes_repeat [255] preamble_len)
             ([2; Z.lor 128 a; c] ++ payload_field data))
    by (done || apply bytes_repeat_singleton_length).
  rewrite <- app_assoc.
  rewrite (slice_from_app (bytes_repeat [255] preamble_len))
    by (done || apply bytes_repeat_singleton_length).
  rewrite xor_bytes_app, (xor_bytes_cons _ []).
  change (xor_bytes []) with 0. by rewrite Z.lxor_0_r, Z.lxor_nilpotent.
Qed.

Lemma pack_short_frame_parity_witness :
  ∃ frame,
    pack_short_frame (PInt 5) (PInt 3) 20 (PBytes [1; 2; 3]) = Ok frame
    ∧ xor_bytes (slice_from frame 20) = 0.
Proof.
  apply (pack_short_frame_parity (PInt 5) 5 (PInt 3) 3 20 (PBytes [1; 2; 3])).
  - left. reflexivity.
  - lia.
  - left. reflexivity.
  - unfold is_byte. lia.
  - lia.
  - right. exists [1; 2; 3]. split; [reflexivity|cbn; lia].
Defined.

(** A negative preamble length is not rejected: the frame then has no
    preamble at all, so its length is [4 + (1 if no data else 1 + len(data))]
    whatever the negative value, and the checksum covers only the bytes
    that the negative index cuts off the end of what precedes it (the last
    [- preamble_len] of them, or all of them when there are fewer). *)
Theorem pack_short_frame_negative_preamble_len
    address a command_id c (preamble_len : Z) data :
  address_arg address a → 0 <= a <= 255 →
  command_arg command_id c → is_byte c →
  preamble_len < 0 →
  payload_arg data →
  let covered := [2; Z.lor 128 a; c] ++ payload_field data in
  pack_short_frame address command_id preamble_len data
  = Ok (covered
        ++ [xor_bytes
              (drop (Z.to_nat (Z.of_nat (length covered) + preamble_len))
                    covered)])
  ∧ Z.of_nat (length (covered
        ++ [xor_bytes
              (drop (Z.to_nat (Z.of_nat (length covered) + preamble_len))
                    covered)]))
    = 4 + payload_len data.
Proof.
  intros Haddr Ha Hcmd Hc Hp Hdata covered.
  assert (Hab : is_byte (Z.lor 128 a))
    by (apply lor_byte; unfold is_byte; lia).
  rewrite (pack_short_frame_shape _ a _ c) by done.
  assert (Hnone : bytes_repeat [255] preamble_len = []).
  { unfold bytes_repeat. by replace (Z.to_nat preamble_len) with 0%nat by lia. }
  rewrite Hnone. subst covered. cbn [app]. split.
  - unfold slice_from.
    destruct (Z.ltb_spec preamble_len 0) as [_|?]; [|lia].
    match goal with
    | |- context [Z.to_nat (Z.max (preamble_len + ?L) 0)] =>
        replace (Z.to_nat (Z.max (preamble_len + L) 0))
          with (Z.to_nat (L + preamble_len)) by lia
    end.
    done.
  - cbn [length]. rewrite length_app. cbn [length].
    pose proof (payload_field_length data). lia.
Qed.

Lemma pack_short_frame_negative_preamble_len_witness :
  let covered := [2; Z.lor 128 1; 3] ++ payload_field (PBytes [9]) in
  pack_short_frame (PInt 1) (PInt 3) (-2) (PBytes [9])
  = Ok (covered
        ++ [xor_bytes
              (drop (Z.to_nat (Z.of_nat (length covered) + -2)) covered)])
  ∧ Z.of_nat (length (covered
        ++ [xor_bytes
              (drop (Z.to_nat (Z.of_nat (length covered) + -2)) covered)]))
    = 4 + payload_len (PBytes [9]).
Proof.
  apply (pack_short_frame_negative_preamble_len (PInt 1) 1 (PInt 3) 3 (-2)
           (PBytes [9])).
  - left. reflexivity.
  - lia.
  - left. reflexivity.
  - unfold is_byte. lia.
  - lia.
  - right. exists [9]. split; [reflexivity|cbn; lia].
Defined.

(** Frames can be told apart: two calls with the same preamble length,
    seven-bit addresses, single-byte command ids and payloads that fit,
    which return the same frame, were given the same address, the same
    command id and the same byte count and data.  ([None] and the empty
    byte string are the one pair of payloads with the same count and data.) *)
Theorem pack_short_frame_injective
    address a command_id c data address' a' command_id' c' data'
    (preamble_len : Z) (frame : list Z) :
  address_arg address a → 0 <= a < 128 →
  command_arg command_id c → is_byte c → payload_arg data →
  address_arg address' a' → 0 <= a' < 128 →
  command_arg command_id' c' → is_byte c' → payload_arg data' →
  pack_short_frame address command_id preamble_len data = Ok frame →
  pack_short_frame address' command_id' preamble_len data' = Ok frame →
  a = a' ∧ c = c'
  ∧ payload_field data = payload_field data'
  ∧ ∀ d d', data = PBytes d → data' = PBytes d' → d = d'.
Proof.
  intros Haddr Ha Hcmd Hc Hdata Haddr' Ha' Hcmd' Hc' Hdata' Hframe Hframe'.
  rewrite (pack_short_frame_shape _ a _ c) in Hframe;
    [|done|apply lor_byte; unfold is_byte; lia|done..].
  rewrite (pack_short_frame_shape _ a' _ c') in Hframe';
    [|done|apply lor_byte; unfold is_byte; lia|done..].
  rewrite <- Hframe' in Hframe. injection Hframe as Heq.
  apply app_inj_tail in Heq as [Heq _].
  apply app_inv_head in Heq. injection Heq as Hlor Hcc Hpayload.
  rewrite !lor_128_add in Hlor by done.
  split_and!; [lia|done|done|].
  intros d d' -> ->. cbn [payload_field] in Hpayload. congruence.
Qed.

Lemma pack_short_frame_injective_witness :
  0 = 0 ∧ 3 = 3
  ∧ payload_field PNone = payload_field (PBytes [])
  ∧ ∀ d d', PNone = PBytes d → PBytes [] = PBytes d' → d = d'.
Proof.
  apply (pack_short_frame_injective
           (PInt 0) 0 (PInt 3) 3 PNone (PBytes [0]) 0 (PBytes [3]) 3
           (PBytes []) 20
           (bytes_repeat [255] 20 ++ [2; 128; 3; 0; 129])).
  - left. reflexivity.
  - lia.
  - left. reflexivity.
  - unfold is_byte. lia.
  - left. reflexivity.
  - right. exists [0]. split; reflexivity.
  - lia.
  - right. reflexivity.
  - unfold is_byte. lia.
  - right. exists []. split; [reflexivity|cbn; lia].
  - reflexivity.
  - reflexivity.
Defined.

Lemma from_bytes_snoc (b : list Z) (x : Z) :
  from_bytes (b ++ [x]) = from_bytes b * 256 + x.
Proof. unfold from_bytes. by rewrite fold_left_app. Qed.

(** [int.from_bytes] undoes [int.to_bytes] at every width. *)
Lemma from_bytes_be_digits (len : nat) :
  ∀ n, 0 <= n < 256 ^ Z.of_nat len → from_bytes (be_digits len n) = n.
Proof.
  induction len as [|len IH]; intros n Hn.
  - cbn in *. lia.
  - cbn [be_digits]. rewrite from_bytes_snoc, IH.
    + pose proof (Z.div_mod n 256). lia.
    + rewrite Nat2Z.inj_succ, Z.pow_succ_r in Hn by lia.
      split; [apply Z.div_pos; lia|].
      apply Z.div_lt_upper_bound; lia.
Qed.

(** The two forms of the address argument agree: passing the big-endian
    bytes of an integer, at any width that holds it, packs the same frame
    (or fails the same way) as passing the integer. *)
Theorem pack_short_frame_address_bytes
    (a : Z) (width : nat) (b : list Z)
    (command_id : pyval) (preamble_len : Z) (data : pyval) :
  to_bytes a width = Ok b →
  pack_short_frame (PBytes b) command_id preamble_len data
  = pack_short_frame (PInt a) command_id preamble_len data.
Proof.
  unfold to_bytes.
  destruct (Z.ltb_spec a 0) as [?|Hlo]; [done|].
  destruct (Z.leb_spec (256 ^ Z.of_nat width) a) as [?|Hhi]; [done|].
  intros [= <-]. unfold pack_short_frame.
  by rewrite from_bytes_be_digits by lia.
Qed.

Lemma pack_short_frame_address_bytes_witness :
  pack_short_frame (PBytes [0; 0; 37]) (PInt 3) 20 PNone
  = pack_short_frame (PInt 37) (PInt 3) 20 PNone.
Proof.
  apply (pack_short_frame_address_bytes 37 3 [0; 0; 37]). reflexivity.
Defined.

(** ** Further properties of the identification exchange *)

Lemma for_each_app {A} (xs ys : list A) (body : A → M unit) st :
  for_each (xs ++ ys) body st
  = match for_each xs body st with
    | (Ok _, st') => for_each ys body st'
    | (Raise e, st') => (Raise e, st')
    | (OutOfFuel, st') => (OutOfFuel, st')
    end.
Proof.
  revert st. induction xs as [|x xs IH]; intros st.
  - done.
  - cbn [app]. rewrite !for_each_cons.
    destruct (body x st) as [[[]| |] st1]; [apply IH|done..].
Qed.

Lemma to_bytes_3 (d : Z) : 0 <= d < 2 ^ 24 → to_bytes d 3 = Ok (be_digits 3 d).
Proof.
  intros Hd. unfold to_bytes.
  destruct (Z.ltb_spec d 0) as [?|_]; [lia|].
  destruct (Z.leb_spec (256 ^ Z.of_nat 3) d) as [?|_]; [|done].
  change (256 ^ Z.of_nat 3) with (2 ^ 24) in *. lia.
Qed.

Section Identification.
Context `{HartTools}.

(** One well-formed response overwrites the three identity fields. *)
Lemma run_command_0_body_response (msg : message) m t d (st : machine) :
  command_0_response msg m t d →
  run_command_0_body msg st
  = (Ok (),
     mkMachine
       (mkSimpleMaster m t (PBytes (be_digits 3 d)) (long_address (self st)))
       (unpacker st) (trace st ++ [LogResponse msg])).
Proof.
  intros (Hm & Ht & Hd & Hrange).
  unfold run_command_0_body, getattr. rewrite Hm, Ht, Hd.
  run_monad. cbn [py_to_bytes]. by rewrite (to_bytes_3 d Hrange).
Qed.

Lemma run_command_0_loop_responses (msgs : list message) :
  Forall (λ msg, ∃ m t d, command_0_response msg m t d) msgs →
  ∀ st, ∃ st',
    for_each msgs run_command_0_body st = (Ok (), st')
    ∧ unpacker st' = unpacker st
    ∧ long_address (self st') = long_address (self st).
Proof.
  induction 1 as [|msg msgs (m & t & d & Hmsg) _ IH]; intros st.
  - by exists st.
  - rewrite for_each_cons, (run_command_0_body_response msg m t d) by done.
    destruct (IH (mkMachine
      (mkSimpleMaster m t (PBytes (be_digits 3 d)) (long_address (self st)))
      (unpacker st) (trace st ++ [LogResponse msg])))
      as (st' & -> & Hstream & Haddr).
    by exists st'.
Qed.

(** Last response wins: when every drained message is a well-formed
    response to command 0, [run_command_0] stores the identity of the last
    one, with the device id as three big-endian bytes, and, the long
    address computation succeeding, stores its result and returns [True];
    the batch is gone from the stream. *)
Theorem run_command_0_last_response
    (st : machine) (msgs : list message) (msg : message) m t d a :
  hd [] (unpacker st) = msgs ++ [msg] →
  Forall (λ x, ∃ m' t' d', command_0_response x m' t' d') msgs →
  command_0_response msg m t d →
  m ≠ PNone → t ≠ PNone →
  calculate_long_address m t (PBytes (be_digits 3 d)) = Ok a →
  ∃ st',
    run_command_0 st = (Ok true, st')
    ∧ self st' = mkSimpleMaster m t (PBytes (be_digits 3 d)) a
    ∧ unpacker st' = tail (unpacker st).
Proof.
  intros Hbatch Hall Hmsg Hm Ht Hcalc.
  rewrite run_command_0_unfold, Hbatch, for_each_app.
  edestruct (run_command_0_loop_responses msgs Hall)
    as (st1 & -> & Hstream & _).
  rewrite for_each_cons, (run_command_0_body_response msg m t d) by done.
  cbn [for_each]. run_monad.
  unfold run_command_0_conclude. run_monad.
  destruct m; [done|..]; (destruct t; [done|..]);
    cbn [is_None orb]; rewrite Hcalc; run_monad;
    (eexists; split; [done|]; split; [done|]; by rewrite Hstream).
Qed.

(** A response whose device id is missing or does not convert to three
    bytes ends the call with that exception after the manufacturer id and
    the device type of that response have been stored: the session is left
    with a partly overwritten identity. *)
Theorem run_command_0_partial_identity
    (st : machine) (msg : message) (rest : list message) m t (e : exn) :
  hd [] (unpacker st) = msg :: rest →
  msg !! "manufacturer_id" = Some m →
  msg !! "manufacturer_device_type" = Some t →
  (getattr msg "device_id" ≫= λ v, py_to_bytes v 3) = Raise e →
  ∃ st',
    run_command_0 st = (Raise e, st')
    ∧ self st'
      = mkSimpleMaster m t (device_id (self st)) (long_address (self st)).
Proof.
  intros Hbatch Hm Ht Hd.
  rewrite run_command_0_unfold, Hbatch, for_each_cons.
  unfold run_command_0_body at 1. unfold getattr in *. rewrite Hm, Ht.
  run_monad.
  destruct (msg !! "device_id") as [v|]; cbn [mbind result_bind] in Hd.
  - rewrite Hd. by eexists.
  - injection Hd as <-. by eexists.
Qed.

(** A session that already holds an identity passes the check without any
    response: with zero decoded messages [run_command_0] returns [True] and
    stores the long address of the identity it had. *)
Theorem run_command_0_stale_identity (st : machine) (a : pyval) :
  hd [] (unpacker st) = [] →
  manufacturer_id (self st) ≠ PNone →
  manufacturer_device_type (self st) ≠ PNone →
  device_id (self st) ≠ PNone →
  calculate_long_address (manufacturer_id (self st))
    (manufacturer_device_type (self st)) (device_id (self st)) = Ok a →
  ∃ st',
    run_command_0 st = (Ok true, st')
    ∧ self st'
      = mkSimpleMaster (manufacturer_id (self st))
          (manufacturer_device_type (self st)) (device_id (self st)) a.
Proof.
  intros Hbatch Hm Ht Hd Hcalc.
  rewrite run_command_0_unfold, Hbatch. cbn [for_each]. run_monad.
  unfold run_command_0_conclude. run_monad.
  assert (Hnone :
    is_None (manufacturer_id (self st))
    || is_None (manufacturer_device_type (self st))
    || is_None (device_id (self st)) = false).
  { rewrite !orb_false_iff.
    split_and!; apply not_true_is_false; by rewrite is_None_true. }
  rewrite Hnone, Hcalc. run_monad. by eexists.
Qed.

Lemma run_command_0_loop_long_address (msgs : list message) :
  ∀ st r st',
  for_each msgs run_command_0_body st = (r, st') →
  long_address (self st') = long_address (self st).
Proof.
  induction msgs as [|msg msgs IH]; intros st r st'.
  - by intros [= <- <-].
  - rewrite for_each_cons. unfold run_command_0_body at 1. run_monad.
    destruct (getattr msg "manufacturer_id") as [m| |];
      [|by intros [= <- <-]..].
    destruct (getattr msg "manufacturer_device_type") as [t| |];
      [|by intros [= <- <-]..].
    destruct (getattr msg "device_id") as [d| |];
      [|by intros [= <- <-]..].
    destruct (py_to_bytes d 3) as [b| |]; [|by intros [= <- <-]..].
    intros Hrest. by apply IH in Hrest.
Qed.

(** The long address is written only by a call that returns [True]: when
    [run_command_0] returns [False] or raises, the long address of the
    session is the one it had before the call. *)
Theorem run_command_0_keeps_long_address (st st' : machine) (r : result bool) :
  run_command_0 st = (r, st') →
  r ≠ Ok true →
  long_address (self st') = long_address (self st).
Proof.
  rewrite run_command_0_unfold. intros Hrun Hr.
  destruct (for_each _ _ _) as [[[]| |] st1] eqn:Hloop.
  - apply run_command_0_loop_long_address in Hloop.
    cbn [self long_address] in Hloop. rewrite <- Hloop.
    revert Hrun. unfold run_command_0_conclude. run_monad.
    destruct (is_None _ || is_None _ || is_None _).
    + by intros [= <- <-].
    + destruct (calculate_long_address _ _ _) as [a| |];
        [|by intros [= <- <-]..].
      intros [= <- <-]. done.
  - injection Hrun as <- <-.
    by apply run_command_0_loop_long_address in Hloop.
  - injection Hrun as <- <-.
    by apply run_command_0_loop_long_address in Hloop.
Qed.

End Identification.

(** ** Further properties of the status and reading exchanges *)

Section Exchanges.
Context `{HartTools}.

(** [run_command_1] when the frame can be packed. *)
Lemma run_command_1_sent (st : machine) (frame : list Z) :
  pack_command (long_address (self st)) 1 = Ok frame →
  run_command_1 st
  = (Ok (),
     mkMachine (self st) (tail (unpacker st))
       (trace st
        ++ [LogDebug "Send command 1"; SerialWrite frame; Sleep STO]
        ++ map LogResponse (hd [] (unpacker st))
        ++ [Sleep (Seconds 1)])).
Proof.
  intros Hframe. unfold run_command_1. run_monad. rewrite Hframe.
  unfold drain. cbn [self unpacker trace].
  destruct (unpacker st) as [|batch later]; rewrite log_responses_loop;
    cbn [self unpacker trace hd tail map]; by rewrite <- !app_assoc.
Qed.

(** Silence is not a failure for command 1: whenever the frame can be
    packed, [run_command_1] returns normally, having written that frame
    once, taken exactly one batch off the stream and logged each of its
    messages, empty batch included; when packing raises, the exception
    goes on with nothing written and the stream untouched. *)
Theorem run_command_1_exchange (st : machine) :
  (∀ frame,
     pack_command (long_address (self st)) 1 = Ok frame →
     run_command_1 st
     = (Ok (),
        mkMachine (self st) (tail (unpacker st))
          (trace st
           ++ [LogDebug "Send command 1"; SerialWrite frame; Sleep STO]
           ++ map LogResponse (hd [] (unpacker st))
           ++ [Sleep (Seconds 1)])))
  ∧ (∀ e,
       pack_command (long_address (self st)) 1 = Raise e →
       run_command_1 st
       = (Raise e,
          mkMachine (self st) (unpacker st)
            (trace st ++ [LogDebug "Send command 1"]))).
Proof.
  split.
  - apply run_command_1_sent.
  - intros e Hframe. unfold run_command_1. run_monad. by rewrite Hframe.
Qed.

(** Last response wins for command 3, whatever the values: when every
    drained message carries the two variables, the reading returned has
    the primary variable of the last message as it is and its secondary
    variable multiplied by 1000000; a last message whose secondary
    variable is [None] makes the call raise TypeError instead. *)
Theorem run_command_3_last_response
    (st : machine) (msgs : list message) (msg : message) p s
    (frame : list Z) :
  hd [] (unpacker st) = msgs ++ [msg] →
  Forall command_3_response msgs →
  msg !! "primary_variable" = Some p →
  msg !! "secondary_variable" = Some s →
  pack_command (long_address (self st)) 3 = Ok frame →
  (∀ w, py_mul s 1000000 = Ok w →
     ∃ data st',
       run_command_3 st = (Ok data, st')
       ∧ data !! "primary" = Some p
       ∧ data !! "secondary" = Some w)
  ∧ (s = PNone → (run_command_3 st).1 = Raise TypeError).
Proof.
  intros Hbatch Hall Hp Hs Hframe.
  destruct (run_command_3_spec st) as (st1 & evs & Hrun & _).
  destruct (read_messages_snoc msgs msg _ _ Hp Hs empty_reading Hall)
    as (d1 & Hd1 & Hd1p & Hd1s).
  assert (Hreading :
    reading_of (long_address (self st)) (hd [] (unpacker st))
    = (w ← py_mul s 1000000; Ok (<["secondary" := w]> d1))).
  { unfold reading_of. rewrite Hframe, Hbatch. cbn [mbind result_bind].
    rewrite Hd1. cbn [mbind result_bind]. unfold getitem. by rewrite Hd1s. }
  rewrite Hreading in Hrun. split.
  - intros w Hw. rewrite Hw in Hrun. cbn [mbind result_bind] in Hrun.
    eexists _, _. split; [exact Hrun|]. by simplify_map_eq.
  - intros ->. by rewrite Hrun.
Qed.

Lemma read_messages_missing (msgs : list message) :
  Exists (λ msg, ¬ command_3_response msg) msgs →
  ∀ data, read_messages msgs data = Raise AttributeError.
Proof.
  induction 1 as [msg msgs Hmsg|msg msgs _ IH]; intros data;
    cbn [read_messages]; unfold getattr at 1 2.
  - destruct (msg !! "primary_variable") as [p|] eqn:Hp; [|done].
    destruct (msg !! "secondary_variable") as [s|] eqn:Hs; [|done].
    destruct Hmsg. unfold command_3_response. rewrite Hp, Hs. eauto.
  - destruct (msg !! "primary_variable") as [p|]; [|done].
    destruct (msg !! "secondary_variable") as [s|]; [|done].
    apply IH.
Qed.

(** One stray message spoils the batch: if any drained message lacks the
    primary or the secondary variable (a late answer to another command,
    say), [run_command_3] raises AttributeError and returns no reading,
    wherever that message stands in the batch. *)
Theorem run_command_3_missing_variable (st : machine) (frame : list Z) :
  pack_command (long_address (self st)) 3 = Ok frame →
  Exists (λ msg, ¬ command_3_response msg) (hd [] (unpacker st)) →
  (run_command_3 st).1 = Raise AttributeError.
Proof.
  intros Hframe Hstray.
  destruct (run_command_3_spec st) as (st1 & evs & -> & _).
  cbn [fst]. unfold reading_of. rewrite Hframe. cbn [mbind result_bind].
  by rewrite read_messages_missing.
Qed.

End Exchanges.

(** ** Further properties of the orchestrator *)

Lemma published_before_identification (evs : list event) :
  Forall (λ e, after_identification e = false) evs → published evs = [].
Proof.
  induction 1 as [|e evs He _ IH]; [done|].
  destruct e; cbn in He |- *; (done || exact IH).
Qed.

Lemma press_temp_pairs_cons2 (p s : pyval) (l : list (string * pyval)) :
  press_temp_pairs l → press_temp_pairs ([("press", p); ("temp", s)] ++ l).
Proof. intros Hl. cbn. done. Qed.

Section Polling.
Context `{HartTools} `{MqttBroker}.

Lemma run_command_0_conclude_trace (st st' : machine) (r : result bool) :
  run_command_0_conclude st = (r, st') → trace st' = trace st.
Proof.
  unfold run_command_0_conclude. run_monad.
  destruct (is_None _ || is_None _ || is_None _); [by intros [= <- <-]|].
  destruct (calculate_long_address _ _ _) as [a| |]; by intros [= <- <-].
Qed.

(** Nothing [run_command_0] does belongs to the later stages. *)
Lemma run_command_0_events (st st' : machine) (r : result bool) :
  run_command_0 st = (r, st') →
  ∃ evs, trace st' = trace st ++ evs
         ∧ Forall (λ e, after_identification e = false) evs.
Proof.
  rewrite run_command_0_unfold.
  destruct (for_each _ _ _) as [r1 st1] eqn:Hloop.
  apply run_command_0_loop in Hloop as (_ & evs & Htr & Hevs).
  cbn [self unpacker trace] in Htr.
  assert (Hall : Forall (λ e, after_identification e = false)
    ([SerialWrite command_0_frame; LogDebug "Send command 0"; Sleep STO]
     ++ evs)).
  { rewrite Forall_app. split; [|done]. by repeat constructor. }
  destruct r1 as [[]| |].
  - intros Hend. apply run_command_0_conclude_trace in Hend.
    eexists. split; [|exact Hall]. by rewrite Hend, Htr, <- app_assoc.
  - intros [= <- <-]. eexists. split; [|exact Hall].
    by rewrite Htr, <- app_assoc.
  - intros [= <- <-]. eexists. split; [|exact Hall].
    by rewrite Htr, <- app_assoc.
Qed.

(** Nothing is published by [run_command_1]. *)
Lemma run_command_1_events (st st' : machine) (r : result ()) :
  run_command_1 st = (r, st') →
  ∃ evs, trace st' = trace st ++ evs ∧ published evs = [].
Proof.
  unfold run_command_1. run_monad.
  destruct (pack_command (long_address (self st)) 1) as [frame| |].
  - unfold drain. cbn [self unpacker trace].
    destruct (unpacker st) as [|batch later]; rewrite log_responses_loop;
      cbn [self unpacker trace]; intros [= <- <-]; cbn [trace];
      rewrite <- !app_assoc; (eexists; split; [done|]);
      rewrite !published_app; cbn;
      [done|].
    rewrite app_nil_r. clear. induction batch as [|m batch IH]; done.
  - intros [= <- <-]. by exists [LogDebug "Send command 1"].
  - intros [= <- <-]. by exists [LogDebug "Send command 1"].
Qed.

(** A reading that is returned has a value under [primary] and under
    [secondary]. *)
Lemma run_command_3_values (st st' : machine) (data : gmap string pyval) :
  run_command_3 st = (Ok data, st') →
  is_Some (data !! "primary") ∧ is_Some (data !! "secondary").
Proof.
  intros Hrun.
  destruct (run_command_3_spec st) as (? & ? & Hspec & _).
  rewrite Hspec in Hrun. injection Hrun as Hread _.
  unfold reading_of in Hread.
  destruct (pack_command _ 3) as [frame| |]; [|done..].
  cbn [mbind result_bind] in Hread.
  destruct (read_messages _ empty_reading) as [d1| |] eqn:Hd1; [|done..].
  cbn [mbind result_bind] in Hread.
  destruct (getitem d1 "secondary") as [v| |]; [|done..].
  cbn [mbind result_bind] in Hread.
  destruct (py_mul v 1000000) as [w| |]; [|done..].
  injection Hread as <-.
  apply read_messages_frame in Hd1 as [Hdom _];
    [|rewrite empty_reading_dom; set_solver..].
  split.
  - rewrite lookup_insert_ne by done. apply elem_of_dom.
    rewrite Hdom, empty_reading_dom. set_solver.
  - rewrite lookup_insert_eq. by eexists.
Qed.

(** A turn of the loop publishes a whole reading and returns, or publishes
    nothing and does not return. *)
Lemma poll_once_events (st st' : machine) (r : result ()) :
  poll_once st = (r, st') →
  ∃ evs, trace st' = trace st ++ evs
    ∧ ((r ≠ Ok () ∧ published evs = [])
       ∨ (r = Ok () ∧ ∃ p s, published evs = [("press", p); ("temp", s)])).
Proof.
  unfold poll_once. cbv beta iota zeta delta [mbind M_bind].
  destruct (run_command_3 st) as [[data| |] st1] eqn:Hrun.
  - pose proof (run_command_3_values _ _ _ Hrun) as ([p Hp] & [s Hs]).
    destruct (run_command_3_spec st) as (st1' & evs & Hspec & _ & _ & Htr & Hevs).
    rewrite Hspec in Hrun. injection Hrun as _ ->.
    unfold getitem. rewrite Hp, Hs. cbv beta iota zeta delta [lift].
    destruct (Client_publish_spec "press" p st1) as (line1 & -> & Hline1).
    destruct (Client_publish_spec "temp" s
                (mkMachine (self st1) (unpacker st1)
                   (trace st1 ++ [MqttPublish "press" p; line1])))
      as (line2 & -> & Hline2).
    intros [= <- <-]. cbn [self unpacker trace].
    exists (evs ++ [MqttPublish "press" p; line1]
                ++ [MqttPublish "temp" s; line2]).
    split; [by rewrite Htr, <- !app_assoc|].
    right. split; [done|]. exists p, s.
    rewrite !published_app, Hevs. cbn in Hline1, Hline2 |- *.
    by rewrite Hline1, Hline2.
  - destruct (run_command_3_spec st) as (st1' & evs & Hspec & _ & _ & Htr & Hevs).
    rewrite Hspec in Hrun. injection Hrun as _ ->.
    intros [= <- <-]. exists evs. split; [done|]. by left.
  - destruct (run_command_3_spec st) as (st1' & evs & Hspec & _ & _ & Htr & Hevs).
    rewrite Hspec in Hrun. injection Hrun as _ ->.
    intros [= <- <-]. exists evs. split; [done|]. by left.
Qed.

(** The loop never returns, and what it publishes is whole readings. *)
Lemma poll_loop_events (fuel : nat) :
  ∀ st r st',
  poll_loop fuel st = (r, st') →
  r ≠ Ok ()
  ∧ ∃ evs, trace st' = trace st ++ evs ∧ press_temp_pairs (published evs).
Proof.
  induction fuel as [|fuel IH]; intros st r st'.
  - intros [= <- <-]. split; [done|]. exists []. by rewrite app_nil_r.
  - cbn [poll_loop]. cbv beta iota zeta delta [mbind M_bind].
    destruct (poll_once st) as [r1 st1] eqn:Hturn.
    apply poll_once_events in Hturn
      as (evs1 & Htr1 & [[Hr1 Hevs1]|[-> (p & s & Hevs1)]]).
    + destruct r1 as [[]| |]; [done|..]; intros [= <- <-];
        (split; [done|]); exists evs1; by rewrite Hevs1.
    + intros Hrest. apply IH in Hrest as (Hr & evs & Htr & Hevs).
      split; [done|]. exists (evs1 ++ evs).
      split; [by rewrite Htr, Htr1, <- app_assoc|].
      rewrite published_app, Hevs1. by apply press_temp_pairs_cons2.
Qed.

End Polling.

Section Run.
Context `{HartTools} `{MqttBroker}.

Lemma run_events
    (fuel : nat) (port username password broker : string) (broker_port : Z)
    (st st' : machine) (r : result ()) :
  run fuel port username password broker broker_port st = (r, st') →
  r ≠ Ok ()
  ∧ ∃ evs, trace st' = trace st ++ evs ∧ press_temp_pairs (published evs).
Proof.
  assert (Hinit : SimpleMaster_init port st
          = (Ok (), mkMachine unidentified (unpacker st)
                      (trace st ++ [SerialOpen port]))) by reflexivity.
  unfold run. cbv beta iota zeta delta [mbind M_bind]. rewrite Hinit.
  destruct (run_command_0 _) as [r0 st0] eqn:Hrun0.
  apply run_command_0_events in Hrun0 as (evs0 & Htr0 & Hevs0).
  apply published_before_identification in Hevs0.
  cbn [self unpacker trace] in Htr0.
  destruct r0 as [[|]| |].
  - cbn [negb]. run_monad.
    destruct (run_command_1 st0) as [r1 st1] eqn:Hrun1.
    apply run_command_1_events in Hrun1 as (evs1 & Htr1 & Hevs1).
    destruct r1 as [[]| |].
    + unfold Client_init, with_client, Client_enter, finally. run_monad.
      destruct (poll_loop fuel _) as [r2 st2] eqn:Hloop.
      apply poll_loop_events in Hloop as (Hr2 & evs2 & Htr2 & Hevs2).
      cbn [self unpacker trace] in Htr2.
      destruct r2 as [[]| |]; [done|..].
      * unfold Client_exit. run_monad. intros [= <- <-]. split; [done|].
        cbn [trace]. rewrite Htr2, Htr1, Htr0, <- !app_assoc.
        eexists. split; [done|].
        rewrite ?published_app, ?Hevs0, ?Hevs1. cbn.
        by rewrite ?app_nil_r.
      * intros [= <- <-]. split; [done|].
        rewrite Htr2, Htr1, Htr0, <- !app_assoc.
        eexists. split; [done|].
        rewrite ?published_app, ?Hevs0, ?Hevs1. cbn.
      by rewrite ?app_nil_r.
    + intros [= <- <-]. split; [done|].
      rewrite Htr1, Htr0, <- !app_assoc. eexists. split; [done|].
      rewrite ?published_app, ?Hevs0, ?Hevs1. cbn.
      by rewrite ?app_nil_r.
    + intros [= <- <-]. split; [done|].
      rewrite Htr1, Htr0, <- !app_assoc. eexists. split; [done|].
      rewrite ?published_app, ?Hevs0, ?Hevs1. cbn.
      by rewrite ?app_nil_r.
  - cbn [negb]. run_monad. intros [= <- <-]. split; [done|].
    cbn [trace]. rewrite Htr0, <- !app_assoc. eexists. split; [done|].
    rewrite ?published_app, ?Hevs0. cbn.
    by rewrite ?app_nil_r.
  - intros [= <- <-]. split; [done|].
    rewrite Htr0, <- !app_assoc. eexists. split; [done|].
    rewrite ?published_app, ?Hevs0. cbn.
    by rewrite ?app_nil_r.
  - intros [= <- <-]. split; [done|].
    rewrite Htr0, <- !app_assoc. eexists. split; [done|].
    rewrite ?published_app, ?Hevs0. cbn.
    by rewrite ?app_nil_r.
Qed.

(** [run] has no normal return: for every amount of fuel and every
    machine, it ends with an exception (SystemExit after a failed
    identification included) or is still polling. *)
Theorem run_never_returns
    (fuel : nat) (port username password broker : string) (broker_port : Z)
    (st : machine) :
  (run fuel port username password broker broker_port st).1 ≠ Ok ().
Proof.
  destruct (run fuel port username password broker broker_port st)
    as [r st'] eqn:Hrun.
  by apply run_events in Hrun as [Hr _].
Qed.

(** Readings are published whole: whatever the device answers and however
    the run ends, the messages [run] has handed to the broker are a
    sequence of pairs, one on [press] immediately followed by one on
    [temp]; no other topic is used and no [press] value goes out without
    its [temp] value. *)
Theorem run_publishes_whole_readings
    (fuel : nat) (port username password broker : string) (broker_port : Z)
    (st : machine) :
  ∃ l,
    published
      (trace (run fuel port username password broker broker_port st).2)
    = published (trace st) ++ l
    ∧ press_temp_pairs l.
Proof.
  destruct (run fuel port username password broker broker_port st)
    as [r st'] eqn:Hrun.
  apply run_events in Hrun as (_ & evs & Htr & Hevs).
  exists (published evs). cbn [snd]. by rewrite Htr, published_app.
Qed.

(** A first poll that meets silence ends the run after the connection was
    made: when identification succeeds and command 1 is sent, but the batch
    drained by the first [run_command_3] is empty, [run] raises TypeError
    for every positive fuel, the broker has been connected to and the
    network loop started, nothing has been published, and the last thing
    done is stopping the network loop. *)
Theorem run_silent_first_poll
    (fuel : nat) (port username password broker : string) (broker_port : Z)
    (st st1 : machine) (frame1 frame3 : list Z) :
  run_command_0 (SimpleMaster_init port st).2 = (Ok true, st1) →
  pack_command (long_address (self st1)) 1 = Ok frame1 →
  pack_command (long_address (self st1)) 3 = Ok frame3 →
  hd [] (tail (unpacker st1)) = [] →
  ∃ st' evs,
    run (S fuel) port username password broker broker_port st
    = (Raise TypeError, st')
    ∧ trace st' = trace st ++ evs
    ∧ MqttConnect username password broker broker_port ∈ evs
    ∧ MqttLoopStart ∈ evs
    ∧ last evs = Some MqttLoopStop
    ∧ published evs = [].
Proof.
  intros Hrun0 Hframe1 Hframe3 Hsilent.
  assert (Hinit : SimpleMaster_init port st
          = (Ok (), mkMachine unidentified (unpacker st)
                      (trace st ++ [SerialOpen port]))) by reflexivity.
  rewrite Hinit in Hrun0. cbn [snd] in Hrun0.
  unfold run. cbv beta iota zeta delta [mbind M_bind].
  rewrite Hinit, Hrun0. cbn [negb]. run_monad.
  pose proof (run_command_0_events _ _ _ Hrun0) as (evs0 & Htr0 & Hevs0).
  apply published_before_identification in Hevs0.
  cbn [self unpacker trace] in Htr0.
  rewrite (run_command_1_sent st1 frame1 Hframe1).
  unfold Client_init, with_client, Client_enter, finally. run_monad.
  cbn [poll_loop]. cbv beta iota zeta delta [mbind M_bind].
  unfold poll_once at 1. cbv beta iota zeta delta [mbind M_bind].
  match goal with
  | |- context [run_command_3 ?s] =>
      destruct (run_command_3_spec s) as (st3 & evs3 & -> & _ & _ & Htr3 & Hevs3)
  end.
  cbn [self unpacker trace] in Htr3 |- *.
  unfold reading_of. rewrite Hframe3, Hsilent.
  cbn [mbind result_bind read_messages]. unfold Client_exit. run_monad.
  eexists _, _. split; [done|]. cbn [trace].
  rewrite Htr3, Htr0, <- !app_assoc.
  split; [done|].
  split_and!.
  - rewrite !elem_of_app. do 5 right. left. constructor.
  - rewrite !elem_of_app. do 6 right. left. constructor.
  - by rewrite !app_assoc, last_snoc.
  - rewrite !published_app, Hevs0, Hevs3. cbn. rewrite app_nil_r.
    clear. by induction (hd [] (unpacker st1)).
Qed.

End Run.

(** ** The published reading *)


Section Publication.
Context `{HartTools} `{MqttBroker}.


End Publication.


(** ** The further properties on concrete runs *)

Lemma run_command_0_last_response_witness :
  ∃ st',
    @run_command_0 Stub.tools
      (Stub.fresh
         [[Stub.identity_response;
           <["manufacturer_id" := PInt 7]>
             (<["manufacturer_device_type" := PInt 8]>
                (<["device_id" := PInt 258]> ∅))]])
    = (Ok true, st')
    ∧ self st'
      = mkSimpleMaster (PInt 7) (PInt 8) (PBytes (be_digits 3 258))
          (PBytes [7; 8; 0; 1; 2])
    ∧ unpacker st' = [].
Proof.
  apply (@run_command_0_last_response Stub.tools
           (Stub.fresh
              [[Stub.identity_response;
                <["manufacturer_id" := PInt 7]>
                  (<["manufacturer_device_type" := PInt 8]>
                     (<["device_id" := PInt 258]> ∅))]])
           [Stub.identity_response]
           (<["manufacturer_id" := PInt 7]>
              (<["manufacturer_device_type" := PInt 8]>
                 (<["device_id" := PInt 258]> ∅)))
           (PInt 7) (PInt 8) 258 (PBytes [7; 8; 0; 1; 2])).
  - reflexivity.
  - constructor; [|constructor].
    exists (PInt 1), (PInt 2), 3. split_and!; [reflexivity..|lia|lia].
  - split_and!; [reflexivity..|lia|lia].
  - discriminate.
  - discriminate.
  - reflexivity.
Defined.

Lemma run_command_0_partial_identity_witness :
  ∃ st',
    @run_command_0 Stub.tools
      (Stub.fresh
         [[<["manufacturer_id" := PInt 7]>
             (<["manufacturer_device_type" := PInt 8]> ∅)]])
    = (Raise AttributeError, st')
    ∧ self st' = mkSimpleMaster (PInt 7) (PInt 8) PNone PNone.
Proof.
  apply (@run_command_0_partial_identity Stub.tools
           (Stub.fresh
              [[<["manufacturer_id" := PInt 7]>
                  (<["manufacturer_device_type" := PInt 8]> ∅)]])
           (<["manufacturer_id" := PInt 7]>
              (<["manufacturer_device_type" := PInt 8]> ∅))
           [] (PInt 7) (PInt 8) AttributeError); reflexivity.
Defined.

Lemma run_command_0_stale_identity_witness :
  ∃ st',
    @run_command_0 Stub.tools (Stub.identified []) = (Ok true, st')
    ∧ self st'
      = mkSimpleMaster (PInt 1) (PInt 2) (PBytes [0; 0; 3])
          (PBytes [1; 2; 0; 0; 3]).
Proof.
  apply (@run_command_0_stale_identity Stub.tools (Stub.identified [])
           (PBytes [1; 2; 0; 0; 3]));
    (reflexivity || discriminate).
Defined.

Lemma run_command_0_keeps_long_address_witness :
  long_address
    (self (@run_command_0 Stub.tools
             (mkMachine
                (mkSimpleMaster PNone PNone PNone (PBytes [9; 9; 9; 9; 9]))
                [] [])).2)
  = PBytes [9; 9; 9; 9; 9].
Proof.
  apply (@run_command_0_keeps_long_address Stub.tools
           (mkMachine
              (mkSimpleMaster PNone PNone PNone (PBytes [9; 9; 9; 9; 9]))
              [] [])
           _ (Ok false)).
  - reflexivity.
  - discriminate.
Defined.

Lemma run_command_1_exchange_witness :
  @run_command_1 Stub.tools (Stub.identified [[Stub.reading_response]; []])
  = (Ok (),
     mkMachine (self (Stub.identified [])) [[]]
       ([LogDebug "Send command 1";
         SerialWrite [255; 255; 255; 255; 255; 130; 129; 2; 0; 0; 3; 1; 0; 3];
         Sleep STO]
        ++ map LogResponse [Stub.reading_response]
        ++ [Sleep (Seconds 1)])).
Proof.
  apply (proj1 (@run_command_1_exchange Stub.tools
                  (Stub.identified [[Stub.reading_response]; []]))).
  reflexivity.
Defined.

Lemma run_command_3_last_response_witness :
  (∀ w, py_mul (PInt 4) 1000000 = Ok w →
     ∃ data st',
       @run_command_3 Stub.tools
         (Stub.identified
            [[Stub.reading_response;
              <["primary_variable" := PInt 3]>
                (<["secondary_variable" := PInt 4]> ∅)]])
       = (Ok data, st')
       ∧ data !! "primary" = Some (PInt 3)
       ∧ data !! "secondary" = Some w)
  ∧ (PInt 4 = PNone →
     (@run_command_3 Stub.tools
        (Stub.identified
           [[Stub.reading_response;
             <["primary_variable" := PInt 3]>
               (<["secondary_variable" := PInt 4]> ∅)]])).1
     = Raise TypeError).
Proof.
  apply (@run_command_3_last_response Stub.tools
           (Stub.identified
              [[Stub.reading_response;
                <["primary_variable" := PInt 3]>
                  (<["secondary_variable" := PInt 4]> ∅)]])
           [Stub.reading_response]
           (<["primary_variable" := PInt 3]>
              (<["secondary_variable" := PInt 4]> ∅))
           (PInt 3) (PInt 4)
           [255; 255; 255; 255; 255; 130; 129; 2; 0; 0; 3; 3; 0; 1]).
  - reflexivity.
  - constructor; [|constructor]. split; eexists; reflexivity.
  - reflexivity.
  - reflexivity.
  - reflexivity.
Defined.

Lemma run_command_3_missing_variable_witness :
  (@run_command_3 Stub.tools
     (Stub.identified [[Stub.reading_response; Stub.identity_response]])).1
  = Raise AttributeError.
Proof.
  apply (@run_command_3_missing_variable Stub.tools
           (Stub.identified [[Stub.reading_response; Stub.identity_response]])
           [255; 255; 255; 255; 255; 130; 129; 2; 0; 0; 3; 3; 0; 1]).
  - reflexivity.
  - apply Exists_cons_tl, Exists_cons_hd.
    intros [[v Hv] _]. vm_compute in Hv. discriminate Hv.
Defined.

Lemma run_silent_first_poll_witness :
  ∃ st' evs,
    @run Stub.tools Stub.broker 1 "/dev/pts/1" "user" "secret" "host" 1883
      (Stub.fresh [[Stub.identity_response]])
    = (Raise TypeError, st')
    ∧ trace st' = trace (Stub.fresh [[Stub.identity_response]]) ++ evs
    ∧ MqttConnect "user" "secret" "host" 1883 ∈ evs
    ∧ MqttLoopStart ∈ evs
    ∧ last evs = Some MqttLoopStop
    ∧ published evs = [].
Proof.
  eapply (@run_silent_first_poll Stub.tools Stub.broker 0
            "/dev/pts/1" "user" "secret" "host" 1883
            (Stub.fresh [[Stub.identity_response]])).
  - vm_compute. reflexivity.
  - vm_compute. reflexivity.
  - vm_compute. reflexivity.
  - vm_compute. reflexivity.
Defined.
